(** * html-to-md-using-bedrock: chunked HTML-to-Markdown conversion

    A shallow embedding of [html-to-md-using-bedrock.py] and the
    properties of its chunk-planning, context-threading and aggregation
    pipeline.

    Python values are modelled as follows: [str] as [string] (one
    character per code point below 256), [int] as [Z], [list] as [list],
    [dict] as an insertion-ordered association list with unique keys.
    The libraries the script calls (BeautifulSoup, tiktoken, the Bedrock
    runtime client) are collected in the class [Externals]; every
    function of the script is a definition over that class.  Output
    written with [print] is not modelled. *)

From Stdlib Require Import String Ascii List ZArith Lia Bool QArith.
Import ListNotations.

Set Implicit Arguments.

Local Open Scope string_scope.
Local Open Scope Z_scope.

(* ================================================================= *)
(** ** Python strings *)

Module PyStr.

(** The double quote and the line feed, as one-character strings. *)
Definition dquote : string := String "034"%char EmptyString.
Definition nl : string := String "010"%char EmptyString.

(** [str.isspace] on one character, for code points below 256:
    TAB..CR, FS..US, SPACE, NEL and NBSP. *)
Definition is_space (c : ascii) : bool :=
  let n := nat_of_ascii c in
  ((9 <=? n) && (n <=? 13))%nat || ((28 <=? n) && (n <=? 32))%nat
  || (n =? 133)%nat || (n =? 160)%nat.

(** Truth value of a [str]: non-empty. *)
Definition truthy (s : string) : bool :=
  match s with EmptyString => false | String _ _ => true end.

Fixpoint lstrip (s : string) : string :=
  match s with
  | EmptyString => EmptyString
  | String c s' => if is_space c then lstrip s' else s
  end.

Fixpoint rstrip (s : string) : string :=
  match s with
  | EmptyString => EmptyString
  | String c s' =>
      match rstrip s' with
      | EmptyString => if is_space c then EmptyString else String c EmptyString
      | r => String c r
      end
  end.

(** [s.strip()] *)
Definition strip (s : string) : string := lstrip (rstrip s).

(** [s.startswith(p)] *)
Definition startswith (p s : string) : bool := String.prefix p s.

(** [sub in s] *)
Fixpoint contains (sub s : string) : bool :=
  String.prefix sub s ||
  match s with
  | EmptyString => false
  | String _ s' => contains sub s'
  end.

(** [s.replace(old, new)] for a non-empty [old]: one pass from the
    left; after a match the scan resumes behind the matched text.
    [skip] counts the characters of a match still to be dropped. *)
Fixpoint replace_from (old new : string) (skip : nat) (s : string) : string :=
  match s with
  | EmptyString => EmptyString
  | String c s' =>
      match skip with
      | S k => replace_from old new k s'
      | O =>
          if String.prefix old s
          then new ++ replace_from old new (String.length old - 1) s'
          else String c (replace_from old new O s')
      end
  end.

(** With an empty [old], [new] is put before every character and at
    the end. *)
Fixpoint intersperse (new s : string) : string :=
  match s with
  | EmptyString => new
  | String c s' => new ++ String c (intersperse new s')
  end.

Definition replace (old new s : string) : string :=
  match old with
  | EmptyString => intersperse new s
  | String _ _ => replace_from old new O s
  end.

(** [sep.join(parts)] *)
Definition join (sep : string) (parts : list string) : string :=
  String.concat sep parts.

End PyStr.

(* ================================================================= *)
(** ** Python lists and dicts *)

(** [l[lo:hi]] with Python's treatment of negative and out-of-range
    bounds: a negative bound counts from the end, then both bounds are
    clamped to [0, len(l)]. *)
Definition adjust_index (len i : Z) : Z :=
  if i <? 0 then Z.max (i + len) 0 else Z.min i len.

Definition py_slice {A : Type} (l : list A) (lo hi : Z) : list A :=
  let len := Z.of_nat (length l) in
  let a := adjust_index len lo in
  let b := adjust_index len hi in
  firstn (Z.to_nat (b - a)) (skipn (Z.to_nat a) l).

(** A [dict] from [str] to [str]: keys are unique and kept in insertion
    order. *)
Definition dict : Type := list (string * string).

(** [d[k] = v]: replaces the value in place when [k] is present, adds
    the entry at the end otherwise. *)
Fixpoint dict_set (k v : string) (d : dict) : dict :=
  match d with
  | [] => [(k, v)]
  | (k', v') :: rest =>
      if String.eqb k' k then (k', v) :: rest
      else (k', v') :: dict_set k v rest
  end.

Fixpoint dict_get (k : string) (d : dict) : option string :=
  match d with
  | [] => None
  | (k', v') :: rest => if String.eqb k' k then Some v' else dict_get k rest
  end.

Definition dict_keys (d : dict) : list string := map fst d.

(** Truth value of a [dict]: non-empty. *)
Definition dict_truthy (d : dict) : bool :=
  match d with [] => false | _ :: _ => true end.

(* ================================================================= *)
(** ** fix_escape_sequences *)

(** The four patterns of [re.sub] are literal two-character texts, a
    backslash followed by [:], [n], [t] or [r]; substituting a literal
    pattern is [str.replace]. *)
Definition fix_escape_sequences (input_string : string) : string :=
  let fixed_string := PyStr.replace "\:" ":" input_string in
  let fixed_string := PyStr.replace "\n" "" fixed_string in
  let fixed_string := PyStr.replace "\t" "" fixed_string in
  let fixed_string := PyStr.replace "\r" "" fixed_string in
  fixed_string.

(* ================================================================= *)
(** ** The parse tree of BeautifulSoup *)

Module Soup.

(** The classes of string nodes: plain text, CDATA sections, comments,
    and the remaining subclasses of [NavigableString] (doctype,
    declarations, script and stylesheet text, ...). *)
Inductive string_class : Type :=
| NavigableString
| CData
| Comment
| SpecialString.

#[warnings="-register-all"]
Inductive node : Type :=
| Str (cls : string_class) (text : string)
| Tag (name : string) (attrs : list (string * string)) (contents : list node).

(** A [BeautifulSoup] object: the top-level nodes of the document. *)
Definition soup : Type := list node.

(** [tag.descendants]: every node below [tag], in document order. *)
Fixpoint descendants (n : node) : list node :=
  match n with
  | Str _ _ => []
  | Tag _ _ cs => flat_map (fun c => c :: descendants c) cs
  end.

Definition soup_descendants (s : soup) : list node :=
  flat_map (fun c => c :: descendants c) s.

Definition is_tag_named (name : string) (n : node) : bool :=
  match n with
  | Str _ _ => false
  | Tag name' _ _ => String.eqb name' name
  end.

(** [soup.find_all(name)] *)
Definition find_all (name : string) (s : soup) : list node :=
  filter (is_tag_named name) (soup_descendants s).

(** [soup.find(name)], also written [soup.<name>]: the first such
    tag, or [None]. *)
Definition find (name : string) (s : soup) : option node :=
  hd_error (find_all name s).

(** [tag.string]: the single string below a tag, looking through
    chains of only children; [None] otherwise. *)
Fixpoint string_of (n : node) : option string :=
  match n with
  | Str _ text => Some text
  | Tag _ _ [c] => string_of c
  | Tag _ _ _ => None
  end.

(** [tag.get(key)] and [tag.get(key, default)] *)
Fixpoint attr_get (key : string) (attrs : list (string * string)) : option string :=
  match attrs with
  | [] => None
  | (k, v) :: rest => if String.eqb k key then Some v else attr_get key rest
  end.

Definition get (key : string) (n : node) : option string :=
  match n with
  | Str _ _ => None
  | Tag _ attrs _ => attr_get key attrs
  end.

Definition get_default (key default : string) (n : node) : string :=
  match get key n with Some v => v | None => default end.

(** The string classes [get_text] collects. *)
Definition interesting (cls : string_class) : bool :=
  match cls with
  | NavigableString | CData => true
  | Comment | SpecialString => false
  end.

(** The texts of the interesting strings below a tag, in document
    order. *)
Definition text_strings (n : node) : list string :=
  flat_map (fun d => match d with
                     | Str cls text => if interesting cls then [text] else []
                     | Tag _ _ _ => []
                     end) (descendants n).

(** [tag.get_text(strip=True)]: every interesting string is stripped,
    the ones left empty are dropped, the rest is concatenated. *)
Definition get_text_strip (n : node) : string :=
  String.concat ""
    (filter PyStr.truthy (map PyStr.strip (text_strings n))).

End Soup.

Import Soup.

(* ================================================================= *)
(** ** The external libraries *)

(** Exceptions the script can raise. *)
Inductive exn : Type :=
| TypeError
| ValueError.

(** The JSON body and the arguments of [bedrock_client.invoke_model]. *)
Record invoke_request : Type := {
  modelId : string;
  contentType : string;
  accept : string;
  inputText : string;
  maxTokenCount : Z;
  temperature : Q;
  topP : Q
}.

(** What the script uses of its libraries.
    - [html_parser html] is [BeautifulSoup(html, "html.parser")];
    - [tag_str tag] is [str(tag)];
    - [encode text] is [tokenizer.encode(text)], which raises
      [ValueError] ([None]) on text that spells a special token;
    - [decode tokens] is [tokenizer.decode(tokens)];
    - [invoke_model req s] is everything inside the [try] block of
      [convert_chunk_to_markdown]: the call of the service in state [s],
      reading and decoding the response and taking
      [results[0].outputText].  [None] stands for any exception raised
      there. *)
Class Externals : Type := {
  html_parser : string -> soup;
  tag_str : node -> string;
  encode : string -> option (list Z);
  decode : list Z -> string;
  service : Type;
  invoke_model : invoke_request -> service -> option string * service
}.

(** [MAX_TOKEN_LIMIT = 4096] *)
Definition MAX_TOKEN_LIMIT : Z := 4096.

(** The termination sentinel and the delimiter of the front matter. *)
Definition END : string := "END".
Definition DELIM : string := "---".

(* ================================================================= *)
(** ** extract_metadata and strip_head *)

Section Script.

Context {ext : Externals}.

(** The assignment [metadata["title"] = soup.title.string.strip()],
    guarded by [if soup.title and soup.title.string]. *)
Definition set_title (s : soup) (metadata : dict) : dict :=
  match find "title" s with
  | Some title =>
      match string_of title with
      | Some text =>
          if PyStr.truthy text
          then dict_set "title" (PyStr.strip text) metadata
          else metadata
      | None => metadata
      end
  | None => metadata
  end.

(** One turn of [for meta in soup.find_all("meta")]. *)
Definition set_meta (metadata : dict) (meta : node) : dict :=
  match get "name" meta with
  | Some name =>
      if PyStr.truthy name
      then dict_set (PyStr.strip name)
                    (PyStr.strip (get_default "content" "" meta)) metadata
      else metadata
  | None => metadata
  end.

Definition extract_metadata (html_content : string) : dict :=
  let s := html_parser html_content in
  let metadata := [] in
  let metadata := set_title s metadata in
  fold_left set_meta (find_all "meta" s) metadata.

Definition strip_head (html_content : string) : string :=
  match find "body" (html_parser html_content) with
  | Some body => tag_str body
  | None => html_content
  end.

(** [is_html]: whether the parser finds any tag. *)
Definition is_html (content : string) : bool :=
  existsb (fun n => match n with Tag _ _ _ => true | Str _ _ => false end)
    (soup_descendants (html_parser content)).

(* ================================================================= *)
(** ** convert_chunk_to_markdown *)

(** The state of the outside world: the state of the service and the
    record of the calls made to it, oldest first, each with its
    answer. *)
Record world : Type := {
  svc : service;
  calls : list (invoke_request * option string)
}.

(** The prompt of a chunk that follows an earlier one. *)
Definition continuation_prompt (html_chunk previous_markdown : string) : string :=
  PyStr.join PyStr.nl
    [ "";
      "You are a conversion engine that continues converting HTML to Markdown from previous output.";
      "Rules:";
      "- Do NOT output any YAML front matter in this chunk.";
      "- Convert the following HTML to Markdown:";
      "    - For <h1>, use " ++ PyStr.dquote ++ "# " ++ PyStr.dquote ++ ".";
      "    - For <h2>, use " ++ PyStr.dquote ++ "## " ++ PyStr.dquote ++ ".";
      "    - For <h3>, use " ++ PyStr.dquote ++ "### " ++ PyStr.dquote ++ ".";
      "    - For paragraphs (<p>), use plain text.";
      "    - For unordered lists (<ul> and <li>), use Markdown lists with "
        ++ PyStr.dquote ++ "- " ++ PyStr.dquote ++ ".";
      "    - DO NOT include any raw HTML tags.";
      "- Do NOT output the special token " ++ PyStr.dquote ++ "END" ++ PyStr.dquote ++ ".";
      "Previous Markdown:";
      previous_markdown;
      "";
      "Now convert the following HTML to Markdown:";
      html_chunk;
      "";
      "Markdown Output:";
      "" ].

(** The prompt of a first chunk. *)
Definition initial_prompt (html_chunk metadata_block : string)
    (include_metadata : bool) : string :=
  PyStr.join PyStr.nl
    [ "";
      "You are a conversion engine that converts HTML to Markdown.";
      "Rules:";
      "- Start the output with a YAML front matter block containing the following metadata exactly as provided:";
      (if include_metadata then metadata_block else "");
      "";
      "  * The YAML block must begin with a line with only '---', followed by key: "
        ++ PyStr.dquote ++ "value" ++ PyStr.dquote
        ++ " pairs (one per line), then a line with only '---', then an empty line.";
      "- Convert the following HTML to Markdown:";
      "    - For <h1>, use " ++ PyStr.dquote ++ "# " ++ PyStr.dquote ++ ".";
      "    - For <h2>, use " ++ PyStr.dquote ++ "## " ++ PyStr.dquote ++ ".";
      "    - For <h3>, use " ++ PyStr.dquote ++ "### " ++ PyStr.dquote ++ ".";
      "    - For paragraphs (<p>), use plain text.";
      "    - For unordered lists (<ul> and <li>), use Markdown lists with "
        ++ PyStr.dquote ++ "- " ++ PyStr.dquote ++ ".";
      "    - Do NOT include any raw HTML tags.";
      "    - Do NOT output the special token " ++ PyStr.dquote ++ "END" ++ PyStr.dquote ++ ".";
      "Convert the following HTML to Markdown:";
      html_chunk;
      "";
      "Markdown Output:";
      "" ].

Definition make_request (prompt : string) : invoke_request :=
  {| modelId := "amazon.titan-tg1-large";
     contentType := "application/json";
     accept := "application/json";
     inputText := prompt;
     maxTokenCount := 1000;
     temperature := (3 # 10)%Q;
     topP := (9 # 10)%Q |}.

(** One call of the service.  An exception inside the [try] block is
    caught and turns into the empty string; otherwise the stripped
    output text is returned. *)
Definition convert_chunk_to_markdown (html_chunk previous_markdown
    metadata_block : string) (include_metadata : bool) (w : world)
  : string * world :=
  let prompt :=
    if PyStr.truthy previous_markdown
    then continuation_prompt html_chunk previous_markdown
    else initial_prompt html_chunk metadata_block include_metadata in
  let req := make_request prompt in
  let '(answer, svc') := invoke_model req (svc w) in
  let w' := {| svc := svc'; calls := (calls w ++ [(req, answer)])%list |} in
  match answer with
  | Some output_text => (PyStr.strip output_text, w')
  | None => ("", w')
  end.

(* ================================================================= *)
(** ** Calling a function with positional and keyword arguments *)

(** The values the script passes to [convert_chunk_to_markdown]. *)
Inductive argument : Type :=
| AStr (s : string)
| ABool (b : bool).

(** Formatting inside an f-string, and the truth value. *)
Definition arg_text (a : argument) : string :=
  match a with
  | AStr s => s
  | ABool true => "True"
  | ABool false => "False"
  end.

Definition arg_truthy (a : argument) : bool :=
  match a with
  | AStr s => PyStr.truthy s
  | ABool b => b
  end.

(** A signature lists the parameters with their defaults; a frame
    lists them with the values bound so far. *)
Definition signature : Type := list (string * option argument).
Definition frame : Type := list (string * option argument).

(** Positional arguments fill the parameters from the left; one too
    many is an error. *)
Fixpoint bind_positional (params : signature) (args : list argument)
  : option frame :=
  match params, args with
  | _, [] => Some (map (fun p => (fst p, None)) params)
  | [], _ :: _ => None
  | (name, _) :: params', a :: args' =>
      option_map (cons (name, Some a)) (bind_positional params' args')
  end.

(** A keyword argument must name a parameter that is still unbound. *)
Fixpoint bind_keyword (key : string) (a : argument) (fr : frame)
  : option frame :=
  match fr with
  | [] => None
  | (name, bound) :: fr' =>
      if String.eqb name key
      then match bound with
           | Some _ => None
           | None => Some ((name, Some a) :: fr')
           end
      else option_map (cons (name, bound)) (bind_keyword key a fr')
  end.

Fixpoint bind_keywords (kwargs : list (string * argument)) (fr : frame)
  : option frame :=
  match kwargs with
  | [] => Some fr
  | (key, a) :: kwargs' =>
      match bind_keyword key a fr with
      | Some fr' => bind_keywords kwargs' fr'
      | None => None
      end
  end.

(** Unbound parameters take their default; one without is an error. *)
Fixpoint fill_defaults (params : signature) (fr : frame)
  : option (list argument) :=
  match params, fr with
  | [], [] => Some []
  | (_, default) :: params', (_, bound) :: fr' =>
      match (match bound with Some a => Some a | None => default end) with
      | Some a => option_map (cons a) (fill_defaults params' fr')
      | None => None
      end
  | _, _ => None
  end.

(** Every failure of the binding is a [TypeError]. *)
Definition bind_arguments (params : signature) (args : list argument)
    (kwargs : list (string * argument)) : exn + list argument :=
  match bind_positional params args with
  | None => inl TypeError
  | Some fr =>
      match bind_keywords kwargs fr with
      | None => inl TypeError
      | Some fr' =>
          match fill_defaults params fr' with
          | None => inl TypeError
          | Some values => inr values
          end
      end
  end.

(** [def convert_chunk_to_markdown(html_chunk, previous_markdown="",
    metadata_block="", include_metadata=False)] *)
Definition convert_signature : signature :=
  [ ("html_chunk", None);
    ("previous_markdown", Some (AStr ""));
    ("metadata_block", Some (AStr ""));
    ("include_metadata", Some (ABool false)) ].

(** A call of [convert_chunk_to_markdown] written with explicit
    positional and keyword arguments. *)
Definition call_convert (args : list argument)
    (kwargs : list (string * argument)) (w : world)
  : (exn + string) * world :=
  match bind_arguments convert_signature args kwargs with
  | inl e => (inl e, w)
  | inr [html_chunk; previous_markdown; metadata_block; include_metadata] =>
      let '(out, w') :=
        convert_chunk_to_markdown (arg_text html_chunk)
          (arg_text previous_markdown) (arg_text metadata_block)
          (arg_truthy include_metadata) w in
      (inr out, w')
  | inr _ => (inl TypeError, w)
  end.

(** [a, b = s] for a [str] [s]: the two characters of [s], or a
    [ValueError] when [s] has another length. *)
Definition unpack_pair (s : string) : exn + string * string :=
  match s with
  | String a (String b EmptyString) =>
      inr (String a EmptyString, String b EmptyString)
  | _ => inl ValueError
  end.

(* ================================================================= *)
(** ** process_html_in_chunks *)

(** A window as the loop computes it: the value of [chunk_index], of
    [start] and of [end], and the token slice sent for conversion. *)
Record window : Type := {
  w_index : Z;
  w_start : Z;
  w_end : Z;
  w_tokens : list Z
}.

(** The variables of the [while] loop.  [emitted] is not a variable of
    the script: it records the windows in the order the loop computed
    them. *)
Record loop_state : Type := {
  start : Z;
  previous_markdown : string;
  chunk_index : Z;
  markdown_chunks : list string;
  emitted : list window;
  outside : world
}.

(** How the loop was left: its condition became false, a [break] after
    a blank answer, a [break] after an answer with the sentinel, or --
    the loop of the script need not end, a window size of zero never
    advances -- the turns granted to it ([fuel]) were used up while it
    was still running. *)
Inductive loop_exit : Type :=
| Exhausted
| Starved
| Sentinel
| NoFuel.

Definition initial_state (w : world) : loop_state :=
  {| start := 0; previous_markdown := ""; chunk_index := 0;
     markdown_chunks := []; emitted := []; outside := w |}.

(** The slice the loop takes at position [start]. *)
Definition chunk_slice (tokens : list Z) (max_chunk_size overlap_tokens : Z)
    (start : Z) : list Z :=
  let end_ := Z.min (start + max_chunk_size) (Z.of_nat (length tokens)) in
  if 0 <? start
  then py_slice tokens (start - overlap_tokens) end_
  else py_slice tokens start end_.

Fixpoint chunk_loop (tokens : list Z) (max_chunk_size overlap_tokens : Z)
    (metadata_block : string) (fuel : nat) (st : loop_state)
  : loop_state * loop_exit :=
  match fuel with
  | O => (st, NoFuel)
  | S fuel' =>
      let total_tokens := Z.of_nat (length tokens) in
      if start st <? total_tokens then
        let end_ := Z.min (start st + max_chunk_size) total_tokens in
        let chunk_tokens :=
          chunk_slice tokens max_chunk_size overlap_tokens (start st) in
        let chunk_text := decode chunk_tokens in
        let include_metadata := chunk_index st =? 0 in
        let '(markdown_chunk, w') :=
          convert_chunk_to_markdown chunk_text (previous_markdown st)
            metadata_block include_metadata (outside st) in
        let emitted' :=
          (emitted st ++ [{| w_index := chunk_index st; w_start := start st;
                             w_end := end_; w_tokens := chunk_tokens |}])%list in
        if String.eqb (PyStr.strip markdown_chunk) "" then
          ({| start := start st;
              previous_markdown := previous_markdown st;
              chunk_index := chunk_index st;
              markdown_chunks := markdown_chunks st;
              emitted := emitted';
              outside := w' |}, Starved)
        else
          let chunks' := (markdown_chunks st ++ [markdown_chunk])%list in
          if PyStr.contains END markdown_chunk then
            ({| start := start st;
                previous_markdown := markdown_chunk;
                chunk_index := chunk_index st;
                markdown_chunks := chunks';
                emitted := emitted';
                outside := w' |}, Sentinel)
          else
            chunk_loop tokens max_chunk_size overlap_tokens metadata_block fuel'
              {| start := start st + max_chunk_size;
                 previous_markdown := markdown_chunk;
                 chunk_index := chunk_index st + 1;
                 markdown_chunks := chunks';
                 emitted := emitted';
                 outside := w' |}
      else (st, Exhausted)
  end.

(** The YAML front matter built from the metadata. *)
Definition metadata_line (entry : string * string) : string :=
  fst entry ++ ": " ++ PyStr.dquote ++ snd entry ++ PyStr.dquote.

Definition make_metadata_block (with_metadata : bool) (metadata : dict) : string :=
  if with_metadata && dict_truthy metadata
  then "---" ++ PyStr.nl
       ++ PyStr.join PyStr.nl (map metadata_line metadata)
       ++ PyStr.nl ++ "---" ++ PyStr.nl ++ PyStr.nl
  else "".

(** The text after the loop: the chunks joined by line feeds, every
    match of the sentinel taken out, the result stripped. *)
Definition clean (markdown_chunks : list string) : string :=
  PyStr.strip (PyStr.replace END "" (PyStr.join PyStr.nl markdown_chunks)).

(** The front matter is put in front unless the text starts with the
    delimiter. *)
Definition ensure_front_matter (with_metadata : bool) (metadata : dict)
    (metadata_block aggregated_markdown : string) : string :=
  if with_metadata && dict_truthy metadata
     && negb (PyStr.startswith DELIM aggregated_markdown)
  then metadata_block ++ aggregated_markdown
  else aggregated_markdown.

(** The second component of the returned pair: a [dict] on the paths
    that return the metadata, a [str] where a string was unpacked. *)
Inductive returned_metadata : Type :=
| MetaDict (d : dict)
| MetaStr (s : string).

(** What a call does: it returns a pair, raises, or is still inside
    the loop when the fuel is used up. *)
Inductive outcome : Type :=
| Returned (text : string) (metadata : returned_metadata)
| Raised (e : exn)
| Unfinished.

(** A run: the outcome, the windows the loop computed, the answers it
    kept in [markdown_chunks], and the world after the call. *)
Record run : Type := {
  result : outcome;
  planned : list window;
  recorded : list string;
  after : world
}.

(** The function itself.  [fuel] bounds the turns of the loop and [w]
    is the world before the call; both are arguments of the embedding
    only. *)
Definition process_html_in_chunks (html_content : string)
    (max_chunk_size overlap_tokens : Z) (with_metadata : bool)
    (fuel : nat) (w : world) : run :=
  let body_content := find "body" (html_parser html_content) in
  if match body_content with
     | None => true
     | Some body => negb (PyStr.truthy (get_text_strip body))
     end
  then {| result := Returned "" (MetaDict []); planned := [];
          recorded := []; after := w |}
  else
    match encode html_content with
    | None =>
        {| result := Raised ValueError; planned := []; recorded := [];
           after := w |}
    | Some all_tokens =>
        let total_tokens := Z.of_nat (length all_tokens) in
        if MAX_TOKEN_LIMIT <? total_tokens then
          let metadata := extract_metadata html_content in
          let metadata_block := make_metadata_block with_metadata metadata in
          let body_html := strip_head html_content in
          match encode body_html with
          | None =>
              {| result := Raised ValueError; planned := []; recorded := [];
                 after := w |}
          | Some tokens =>
              let '(st, exit) :=
                chunk_loop tokens max_chunk_size overlap_tokens metadata_block
                  fuel (initial_state w) in
              match exit with
              | NoFuel =>
                  {| result := Unfinished; planned := emitted st;
                     recorded := markdown_chunks st; after := outside st |}
              | _ =>
                  let aggregated_markdown := clean (markdown_chunks st) in
                  let aggregated_markdown :=
                    ensure_front_matter with_metadata metadata metadata_block
                      aggregated_markdown in
                  {| result := Returned aggregated_markdown (MetaDict metadata);
                     planned := emitted st; recorded := markdown_chunks st;
                     after := outside st |}
              end
          end
        else
          match call_convert [AStr html_content]
                  [("with_metadata", ABool true)] w with
          | (inl e, w') =>
              {| result := Raised e; planned := []; recorded := [];
                 after := w' |}
          | (inr out, w') =>
              match unpack_pair out with
              | inl e =>
                  {| result := Raised e; planned := []; recorded := [];
                     after := w' |}
              | inr (markdown_output, metadata) =>
                  {| result := Returned markdown_output (MetaStr metadata);
                     planned := []; recorded := []; after := w' |}
              end
          end
    end.

End Script.

(* ================================================================= *)
(** ** The planner and the extractor as the specification words them *)

Module Spec.

(** The planning algorithm of the specification: starting at
    [start = 0], [end = min(start + maxChunkTokens, total)]; the slice is
    [tokens[start:end]] when [start == 0] and
    [tokens[start - overlapTokens : end]] otherwise; [start] advances by
    [maxChunkTokens] until [start >= total].  The recursion is bounded
    by the number of tokens, which a positive window size never
    reaches. *)
Fixpoint plan_from (tokens : list Z) (maxChunkTokens overlapTokens : Z)
    (bound : nat) (index start : Z) : list window :=
  match bound with
  | O => []
  | S bound' =>
      let total := Z.of_nat (length tokens) in
      if total <=? start then []
      else
        let end_ := Z.min (start + maxChunkTokens) total in
        {| w_index := index; w_start := start; w_end := end_;
           w_tokens := if start =? 0
                       then py_slice tokens start end_
                       else py_slice tokens (start - overlapTokens) end_ |}
        :: plan_from tokens maxChunkTokens overlapTokens bound'
             (index + 1) (start + maxChunkTokens)
  end.

Definition plan (tokens : list Z) (maxChunkTokens overlapTokens : Z)
  : list window :=
  plan_from tokens maxChunkTokens overlapTokens (length tokens) 0 0.

(** The non-overlap portions [[w_start, w_end)] of the windows follow
    one another from [from] to [to]: none is empty, each starts where
    the one before ends. *)
Fixpoint contiguous (from : Z) (ws : list window) (to : Z) : Prop :=
  match ws with
  | [] => from = to
  | w :: ws' => w_start w = from /\ from < w_end w /\ contiguous (w_end w) ws' to
  end.

(** The non-overlap portion of a window, as tokens. *)
Definition fresh_tokens (tokens : list Z) (w : window) : list Z :=
  py_slice tokens (w_start w) (w_end w).

(** The first and the last [n] elements of a list. *)
Definition first_tokens (n : Z) (l : list Z) : list Z := firstn (Z.to_nat n) l.
Definition last_tokens (n : Z) (l : list Z) : list Z :=
  skipn (length l - Z.to_nat n) l.

(** The extractor of the specification: the title, when present, under
    ["title"]; every annotation with both a name and a content
    attribute under its trimmed name, with its trimmed content. *)
Definition extract (s : soup) : dict :=
  let title_entries :=
    match find "title" s with
    | Some title =>
        match string_of title with
        | Some text => [("title", PyStr.strip text)]
        | None => []
        end
    | None => []
    end in
  fold_left
    (fun metadata meta =>
       match get "name" meta, get "content" meta with
       | Some name, Some content =>
           dict_set (PyStr.strip name) (PyStr.strip content) metadata
       | _, _ => metadata
       end)
    (find_all "meta" s)
    (fold_left (fun metadata e => dict_set (fst e) (snd e) metadata)
       title_entries []).




(** The context of a window, the tokens in front of its start that the
    slice repeats, and what is left of a slice behind them: its
    non-overlap portion. *)
Definition context_tokens (tokens : list Z) (overlapTokens : Z) (w : window)
  : list Z :=
  if w_start w =? 0 then []
  else py_slice tokens (w_start w - overlapTokens) (w_start w).

Definition non_overlap_part (overlapTokens : Z) (w : window) : list Z :=
  skipn (if w_start w =? 0 then 0%nat else Z.to_nat overlapTokens) (w_tokens w).

(** The end of the last window of a sequence that starts at [from]. *)
Definition reach (from : Z) (ws : list window) : Z :=
  fold_left (fun _ w => w_end w) ws from.

End Spec.

(* ================================================================= *)
(** ** The assignments of extract_metadata, in order *)

Section Assignments.

Context {ext : Externals}.

Definition title_assignment (s : soup) : list (string * string) :=
  match find "title" s with
  | Some title =>
      match string_of title with
      | Some text =>
          if PyStr.truthy text then [("title", PyStr.strip text)] else []
      | None => []
      end
  | None => []
  end.

Definition meta_assignment (meta : node) : list (string * string) :=
  match get "name" meta with
  | Some name =>
      if PyStr.truthy name
      then [(PyStr.strip name, PyStr.strip (get_default "content" "" meta))]
      else []
  | None => []
  end.

(** Every [metadata[key] = value] that [extract_metadata] executes on
    a document, in the order of execution. *)
Definition assignments (html_content : string) : list (string * string) :=
  let s := html_parser html_content in
  (title_assignment s ++ flat_map meta_assignment (find_all "meta" s))%list.

End Assignments.

(** One assignment [metadata[key] = value]. *)
Definition assign (metadata : dict) (e : string * string) : dict :=
  dict_set (fst e) (snd e) metadata.

(** The value of the last assignment to [key]. *)
Fixpoint last_assigned (key : string) (l : list (string * string))
  : option string :=
  match l with
  | [] => None
  | (k, v) :: l' =>
      match last_assigned key l' with
      | Some v' => Some v'
      | None => if String.eqb k key then Some v else None
      end
  end.

(** The keys of a list of assignments, each once, in the order of
    their first assignment. *)
Fixpoint first_keys (l : list string) : list string :=
  match l with
  | [] => []
  | k :: l' => k :: filter (fun k' => negb (String.eqb k' k)) (first_keys l')
  end.

(** The calls a run added to the record of the world. *)
Definition new_calls {ext : Externals} (w : world) (r : run)
  : list (invoke_request * option string) :=
  skipn (length (calls w)) (calls (after r)).

(* ================================================================= *)
(** ** A sample environment *)

(** Stand-ins for the libraries, used to run the script on concrete
    documents: a tokenizer with one token per character, a table of
    documents with their parse trees, a plain serializer, and a service
    that answers its n-th call with [answers n]. *)
Module Sample.

Definition char_token (c : ascii) : Z := Z.of_nat (nat_of_ascii c).
Definition token_char (t : Z) : ascii := ascii_of_nat (Z.to_nat t).

Definition sample_encode (text : string) : option (list Z) :=
  if PyStr.contains "<|endoftext|>" text then None
  else Some (map char_token (list_ascii_of_string text)).

Definition sample_decode (tokens : list Z) : string :=
  string_of_list_ascii (map token_char tokens).

Definition void_elements : list string :=
  [ "area"; "base"; "br"; "col"; "embed"; "hr"; "img"; "input"; "link";
    "meta"; "param"; "source"; "track"; "wbr" ].

Definition serialize_attrs (attrs : list (string * string)) : string :=
  String.concat ""
    (map (fun a => " " ++ fst a ++ "=" ++ PyStr.dquote ++ snd a
                   ++ PyStr.dquote) attrs).

Fixpoint serialize (n : node) : string :=
  match n with
  | Str _ text => text
  | Tag name attrs cs =>
      match cs with
      | [] =>
          if existsb (String.eqb name) void_elements
          then "<" ++ name ++ serialize_attrs attrs ++ "/>"
          else "<" ++ name ++ serialize_attrs attrs ++ "></" ++ name ++ ">"
      | _ :: _ =>
          "<" ++ name ++ serialize_attrs attrs ++ ">"
          ++ String.concat "" (map serialize cs)
          ++ "</" ++ name ++ ">"
      end
  end.

Definition text (s : string) : node := Str NavigableString s.

(** A short page. *)
Definition small_html : string :=
  "<html><head><title>Hi</title></head><body><p>Hi</p></body></html>".
Definition small_soup : soup :=
  [ Tag "html" []
      [ Tag "head" [] [ Tag "title" [] [text "Hi"] ];
        Tag "body" [] [ Tag "p" [] [text "Hi"] ] ] ].

(** A long page: 2000 paragraphs, 16013 characters in its body. *)
Definition paragraphs : nat := 2000.
Definition large_html : string :=
  "<html><head><title> Report </title><meta name='author' content=' Ann '></head><body>"
  ++ String.concat "" (repeat "<p>x</p>" paragraphs) ++ "</body></html>".
Definition large_body : node :=
  Tag "body" [] (repeat (Tag "p" [] [text "x"]) paragraphs).
Definition large_soup : soup :=
  [ Tag "html" []
      [ Tag "head" []
          [ Tag "title" [] [text " Report "];
            Tag "meta" [("name", "author"); ("content", " Ann ")] [] ];
        large_body ] ].

(** The long page under a title that spells the sentinel. *)
Definition weekend_html : string :=
  "<html><head><title>WEEKEND</title></head><body>"
  ++ String.concat "" (repeat "<p>x</p>" paragraphs) ++ "</body></html>".
Definition weekend_soup : soup :=
  [ Tag "html" []
      [ Tag "head" [] [ Tag "title" [] [text "WEEKEND"] ];
        large_body ] ].

(** A page whose body holds white space only. *)
Definition blank_html : string :=
  "<html><head><title>T</title></head><body> <p> </p> </body></html>".
Definition blank_soup : soup :=
  [ Tag "html" []
      [ Tag "head" [] [ Tag "title" [] [text "T"] ];
        Tag "body" [] [ text " "; Tag "p" [] [text " "]; text " " ] ] ].

(** A fragment without a body element. *)
Definition fragment_html : string := "<p>Hello</p>".
Definition fragment_soup : soup := [ Tag "p" [] [text "Hello"] ].

(** A head with several annotations. *)
Definition meta_html : string :=
  "<html><head><title> T </title><meta name='author'><meta name=' k ' content=' v '><meta content='x'><meta name='' content='y'><meta name='k' content='w'></head><body><p>a</p></body></html>".
Definition meta_soup : soup :=
  [ Tag "html" []
      [ Tag "head" []
          [ Tag "title" [] [text " T "];
            Tag "meta" [("name", "author")] [];
            Tag "meta" [("name", " k "); ("content", " v ")] [];
            Tag "meta" [("content", "x")] [];
            Tag "meta" [("name", ""); ("content", "y")] [];
            Tag "meta" [("name", "k"); ("content", "w")] [] ];
        Tag "body" [] [ Tag "p" [] [text "a"] ] ] ].

Definition documents : list (string * soup) :=
  [ (small_html, small_soup); (large_html, large_soup);
    (weekend_html, weekend_soup);
    (blank_html, blank_soup); (fragment_html, fragment_soup);
    (meta_html, meta_soup) ].

(** The parse tree of a document of the table; any other input is read
    as one text node. *)
Fixpoint lookup_document (table : list (string * soup)) (html : string) : soup :=
  match table with
  | [] => [text html]
  | (h, s) :: table' => if String.eqb h html then s else lookup_document table' html
  end.

Definition sample_parser (html : string) : soup :=
  lookup_document documents html.

Definition externals (answers : nat -> option string) : Externals :=
  {| html_parser := sample_parser;
     tag_str := serialize;
     encode := sample_encode;
     decode := sample_decode;
     service := nat;
     invoke_model := fun _ n => (answers n, S n) |}.

(** The world before any call. *)
Definition fresh (answers : nat -> option string) : @world (externals answers) :=
  @Build_world (externals answers) O [].

(** Services: one that always answers ["ok"], one that always answers
    with the sentinel inside a longer word, one that starts every
    answer with the front matter of the long page, one that fails at
    its third call. *)
Definition always_ok (n : nat) : option string := Some "ok".
Definition nested_sentinel (n : nat) : option string := Some "EENDND".
Definition large_block : string :=
  "---" ++ PyStr.nl
  ++ "title: " ++ PyStr.dquote ++ "Report" ++ PyStr.dquote ++ PyStr.nl
  ++ "author: " ++ PyStr.dquote ++ "Ann" ++ PyStr.dquote ++ PyStr.nl
  ++ "---" ++ PyStr.nl ++ PyStr.nl.
Definition fails_third (n : nat) : option string :=
  match n with
  | 2%nat => None
  | _ => Some "# Part"
  end.


(** More services: one that always fails, one whose second answer
    holds the sentinel, one whose second answer is blank. *)
Definition always_fails (n : nat) : option string := None.
Definition sentinel_second (n : nat) : option string :=
  match n with
  | 1%nat => Some "done END"
  | _ => Some "# Part"
  end.
Definition blank_second (n : nat) : option string :=
  match n with
  | 1%nat => Some "  "
  | _ => Some "# Part"
  end.

(** Token sequences for the planner: 2350 tokens, and ten tokens. *)
Definition tokens_2350 : list Z := map Z.of_nat (seq 0 2350).
Definition tokens_10 : list Z := map Z.of_nat (seq 1 10).

(** The first two windows over [tokens_10] with windows of 4 and an
    overlap of 2. *)
Definition first_of_10 : window :=
  {| w_index := 0; w_start := 0; w_end := 4; w_tokens := [1; 2; 3; 4] |}.
Definition second_of_10 : window :=
  {| w_index := 1; w_start := 4; w_end := 8;
     w_tokens := [3; 4; 5; 6; 7; 8] |}.

(** The tokens of a text under the sample tokenizer. *)
Definition tokens_of (text : string) : list Z :=
  map char_token (list_ascii_of_string text).

(** The metadata of the long page. *)
Definition large_metadata : dict := [("title", "Report"); ("author", "Ann")].


(** A content without any tag; the second window over [tokens_10] with
    windows of 2 and an overlap of 3; the title element of the page with
    several annotations. *)
Definition plain_content : string := "Just some text".
Definition wrapped_second : window :=
  {| w_index := 1; w_start := 2; w_end := 4; w_tokens := [] |}.
Definition meta_title : node := Tag "title" [] [text " T "].

(** More turns than the long page has tokens. *)
Definition ample_fuel : nat := Z.to_nat 20000.

(** The front matter of the page with the sentinel in its title. *)
Definition weekend_block : string :=
  "---" ++ PyStr.nl
  ++ "title: " ++ PyStr.dquote ++ "WEEKEND" ++ PyStr.dquote ++ PyStr.nl
  ++ "---" ++ PyStr.nl ++ PyStr.nl.

(** A run of the script on a page, with metadata requested and fuel
    for ten turns of the loop. *)
Definition run_on (answers : nat -> option string) (html : string)
    (max_chunk_size overlap_tokens : Z) : @run (externals answers) :=
  @process_html_in_chunks (externals answers) html max_chunk_size
    overlap_tokens true 10 (fresh answers).

(** The answers the service gave during a run. *)
Definition answers_of (answers : nat -> option string)
    (r : @run (externals answers)) : list (option string) :=
  map snd (@new_calls (externals answers) (fresh answers) r).

End Sample.


(** A call whose answer the loop kept: the service answered, and the
    chunk is the stripped answer. *)
Definition kept {ext : Externals} (call : invoke_request * option string)
    (chunk : string) : Prop :=
  exists output_text,
    snd call = Some output_text /\ chunk = PyStr.strip output_text.

(** A call that made the loop stop without keeping anything: the
    service failed, or its answer was blank. *)
Definition dropped {ext : Externals} (call : invoke_request * option string)
  : Prop :=
  snd call = None
  \/ exists output_text,
       snd call = Some output_text
       /\ PyStr.strip (PyStr.strip output_text) = "".

(** A call whose answer let the loop go on: it was kept, is not blank
    and does not hold the sentinel. *)
Definition passed {ext : Externals} (call : invoke_request * option string)
    (chunk : string) : Prop :=
  kept call chunk /\ PyStr.strip chunk <> ""
  /\ PyStr.contains END chunk = false.

(** The request for a first window, and the request for a window that
    follows a kept chunk. *)
Definition first_request {ext : Externals} (metadata_block : string)
    (w : window) : invoke_request :=
  make_request (initial_prompt (decode (w_tokens w)) metadata_block true).

Definition next_request {ext : Externals} (w : window) (previous : string)
  : invoke_request :=
  make_request (continuation_prompt (decode (w_tokens w)) previous).

(** The requests of a run, given its windows and its kept chunks: the
    first window goes out with the front matter, every later window with
    the chunk kept right before it. *)
Definition threaded_requests {ext : Externals} (metadata_block : string)
    (windows : list window) (chunks : list string) : list invoke_request :=
  match windows with
  | [] => []
  | w0 :: ws =>
      first_request metadata_block w0
      :: map (fun p => next_request (fst p) (snd p)) (combine ws chunks)
  end.

(** A service that never makes the loop stop: it always answers, never
    with a blank text and never with the sentinel. *)
Definition talkative {ext : Externals} : Prop :=
  forall (req : invoke_request) (s : service),
  exists (output_text : string) (s' : service),
    invoke_model req s = (Some output_text, s')
    /\ PyStr.strip (PyStr.strip output_text) <> ""
    /\ PyStr.contains END (PyStr.strip output_text) = false.

(** Position and size of a window: it starts at a multiple of the
    window size, holds at least one and at most [max_chunk_size] new
    tokens, and its slice is these tokens, after the first window
    preceded by [overlap_tokens] tokens of context. *)
Definition well_sized (tokens : list Z) (max_chunk_size overlap_tokens : Z)
    (w : window) : Prop :=
  w_start w = w_index w * max_chunk_size
  /\ 0 <= w_index w
  /\ w_start w < w_end w <= Z.of_nat (length tokens)
  /\ w_end w - w_start w <= max_chunk_size
  /\ Z.of_nat (length (w_tokens w))
     = w_end w - w_start w
       + (if w_index w =? 0 then 0 else overlap_tokens).

(** Whether a character occurs in a text. *)
Fixpoint has_char (c : ascii) (s : string) : bool :=
  match s with
  | EmptyString => false
  | String d s' => Ascii.eqb d c || has_char c s'
  end.

(** The backslash. *)
Definition backslash : ascii := "092"%char.

(* ================================================================= *)
(** * Properties *)

(* ================================================================= *)
(** ** The Python primitives on small inputs *)

Example slice_negative_start :
  py_slice [0; 1; 2; 3; 4; 5; 6; 7; 8; 9] (-1) 4 = [].
Proof. reflexivity. Qed.

Example slice_negative_stop :
  py_slice [0; 1; 2; 3; 4; 5; 6; 7; 8; 9] 0 (-5) = [0; 1; 2; 3; 4].
Proof. reflexivity. Qed.

Example slice_clamped :
  py_slice [0; 1; 2; 3; 4; 5; 6; 7; 8; 9] (-20) 3 = [0; 1; 2]
  /\ py_slice [0; 1; 2; 3; 4; 5; 6; 7; 8; 9] 12 20 = [].
Proof. split; reflexivity. Qed.

Example replace_one_pass :
  PyStr.replace "END" "" "aENDbENDEENDND" = "abEND".
Proof. reflexivity. Qed.

Example replace_empty_pattern : PyStr.replace "" "-" "abc" = "-a-b-c-".
Proof. reflexivity. Qed.

Example strip_both_ends :
  PyStr.strip (" " ++ PyStr.nl ++ "a b" ++ PyStr.nl ++ " ") = "a b".
Proof. reflexivity. Qed.

Example dict_set_overwrites_in_place :
  dict_set "a" "3" (dict_set "b" "2" (dict_set "a" "1" []))
  = [("a", "3"); ("b", "2")].
Proof. reflexivity. Qed.

Example unknown_keyword :
  bind_arguments convert_signature [AStr "x"] [("with_metadata", ABool true)]
  = inl TypeError.
Proof. reflexivity. Qed.

Example known_keyword :
  bind_arguments convert_signature [AStr "x"] [("include_metadata", ABool true)]
  = inr [AStr "x"; AStr ""; AStr ""; ABool true].
Proof. reflexivity. Qed.

(* ================================================================= *)
(** ** Slices *)

Lemma adjust_index_in_range (len i : Z) :
  0 <= i <= len -> adjust_index len i = i.
Proof.
  intros Hi. unfold adjust_index.
  destruct (Z.ltb_spec i 0); lia.
Qed.

(** Inside the bounds of the list a slice is a [firstn] of a [skipn]. *)
Lemma py_slice_in_range (l : list Z) (a b : Z) :
  0 <= a <= Z.of_nat (length l) -> 0 <= b <= Z.of_nat (length l) ->
  py_slice l a b = firstn (Z.to_nat (b - a)) (skipn (Z.to_nat a) l).
Proof.
  intros Ha Hb. unfold py_slice.
  rewrite !adjust_index_in_range by assumption. reflexivity.
Qed.

Lemma py_slice_length (l : list Z) (a b : Z) :
  0 <= a <= b -> b <= Z.of_nat (length l) ->
  Z.of_nat (length (py_slice l a b)) = b - a.
Proof.
  intros Hab Hb. rewrite py_slice_in_range by lia.
  rewrite length_firstn, length_skipn. lia.
Qed.

Lemma py_slice_whole (l : list Z) :
  py_slice l 0 (Z.of_nat (length l)) = l.
Proof.
  rewrite py_slice_in_range by lia. simpl.
  rewrite Z.sub_0_r, Nat2Z.id. apply firstn_all.
Qed.

Lemma firstn_plus {A : Type} (n m : nat) (l : list A) :
  firstn (n + m) l = (firstn n l ++ firstn m (skipn n l))%list.
Proof.
  revert l. induction n as [|n IH]; intros l; simpl.
  - reflexivity.
  - destruct l as [|x l]; simpl.
    + now rewrite firstn_nil.
    + now rewrite IH.
Qed.

(** Two slices that meet make one slice. *)
Lemma py_slice_app (l : list Z) (a b c : Z) :
  0 <= a <= b -> b <= c -> c <= Z.of_nat (length l) ->
  (py_slice l a b ++ py_slice l b c)%list = py_slice l a c.
Proof.
  intros Hab Hbc Hc. rewrite !py_slice_in_range by lia.
  replace (Z.to_nat b) with (Z.to_nat (b - a) + Z.to_nat a)%nat by lia.
  rewrite <- skipn_skipn.
  replace (Z.to_nat (c - a)) with (Z.to_nat (b - a) + Z.to_nat (c - b))%nat by lia.
  rewrite firstn_plus. reflexivity.
Qed.

(** The first [n] tokens of a slice that is long enough. *)
Lemma first_tokens_slice (l : list Z) (a b n : Z) :
  0 <= a -> 0 <= n -> a + n <= b -> b <= Z.of_nat (length l) ->
  Spec.first_tokens n (py_slice l a b) = py_slice l a (a + n).
Proof.
  intros Ha Hn Hab Hb. unfold Spec.first_tokens.
  rewrite !py_slice_in_range by lia.
  rewrite firstn_firstn. f_equal. lia.
Qed.

(** The last [n] tokens of a slice that is long enough. *)
Lemma last_tokens_slice (l : list Z) (a b n : Z) :
  0 <= a -> 0 <= n -> a + n <= b -> b <= Z.of_nat (length l) ->
  Spec.last_tokens n (py_slice l a b) = py_slice l (b - n) b.
Proof.
  intros Ha Hn Hab Hb. unfold Spec.last_tokens.
  assert (Hlen : length (py_slice l a b) = Z.to_nat (b - a)).
  { apply Nat2Z.inj. rewrite py_slice_length by lia. lia. }
  rewrite Hlen. rewrite !py_slice_in_range by lia.
  rewrite skipn_firstn_comm, skipn_skipn.
  f_equal; [lia | f_equal; lia].
Qed.

(* ================================================================= *)
(** ** The planner of the specification *)

Section Planner.

Variable tokens : list Z.
Variables max_chunk_size overlap_tokens : Z.
Hypothesis max_positive : 0 < max_chunk_size.

Let total : Z := Z.of_nat (length tokens).

(** Past the end of the tokens nothing is planned. *)
Lemma plan_from_done (bound : nat) (index start : Z) :
  total <= start ->
  Spec.plan_from tokens max_chunk_size overlap_tokens bound index start = [].
Proof.
  intros Hs. destruct bound as [|bound]; simpl; [reflexivity|].
  fold total. destruct (Z.leb_spec total start); [reflexivity | lia].
Qed.

(** One window is planned wherever tokens are left. *)
Lemma plan_from_step (bound : nat) (index start : Z) :
  start < total ->
  Spec.plan_from tokens max_chunk_size overlap_tokens (S bound) index start =
  {| w_index := index; w_start := start;
     w_end := Z.min (start + max_chunk_size) total;
     w_tokens := if start =? 0
                 then py_slice tokens start (Z.min (start + max_chunk_size) total)
                 else py_slice tokens (start - overlap_tokens)
                        (Z.min (start + max_chunk_size) total) |}
  :: Spec.plan_from tokens max_chunk_size overlap_tokens bound
       (index + 1) (start + max_chunk_size).
Proof.
  intros Hs. simpl. fold total.
  destruct (Z.leb_spec total start); [lia | reflexivity].
Qed.

Lemma plan_from_contiguous (bound : nat) :
  forall index start,
    0 <= start < total -> total - start <= Z.of_nat bound ->
    Spec.contiguous start
      (Spec.plan_from tokens max_chunk_size overlap_tokens bound index start)
      total.
Proof.
  induction bound as [|bound IH]; intros index start Hs Hb; [lia|].
  rewrite plan_from_step by lia. simpl.
  split; [reflexivity|]. split; [lia|].
  destruct (Z.lt_ge_cases (start + max_chunk_size) total) as [Hlt|Hge].
  - rewrite Z.min_l by lia. apply IH; lia.
  - rewrite Z.min_r by lia. rewrite plan_from_done by lia. reflexivity.
Qed.

Lemma plan_from_fresh (bound : nat) :
  forall index start,
    0 <= start <= total -> total - start <= Z.of_nat bound ->
    concat (map (Spec.fresh_tokens tokens)
              (Spec.plan_from tokens max_chunk_size overlap_tokens bound
                 index start))
    = py_slice tokens start total.
Proof.
  induction bound as [|bound IH]; intros index start Hs Hb.
  - assert (start = total) by lia. subst start.
    simpl. unfold total. rewrite py_slice_in_range by lia.
    rewrite Z.sub_diag. reflexivity.
  - destruct (Z.lt_ge_cases start total) as [Hlt|Hge].
    + rewrite plan_from_step by lia. simpl.
      unfold Spec.fresh_tokens at 1. simpl.
      destruct (Z.lt_ge_cases (start + max_chunk_size) total) as [Hlt'|Hge'].
      * rewrite Z.min_l by lia. rewrite IH by lia.
        apply py_slice_app; unfold total in *; lia.
      * rewrite Z.min_r by lia. rewrite plan_from_done by lia.
        simpl. apply app_nil_r.
    + rewrite plan_from_done by lia. simpl.
      assert (start = total) by lia. subst start.
      unfold total. rewrite py_slice_in_range by lia.
      rewrite Z.sub_diag. reflexivity.
Qed.

(** More bound than tokens changes nothing. *)
Lemma plan_from_bound (bound bound' : nat) :
  forall index start,
    0 <= start -> total - start <= Z.of_nat bound ->
    total - start <= Z.of_nat bound' ->
    Spec.plan_from tokens max_chunk_size overlap_tokens bound index start =
    Spec.plan_from tokens max_chunk_size overlap_tokens bound' index start.
Proof.
  revert bound'. induction bound as [|bound IH]; intros bound' index start H0 Hb Hb'.
  - now rewrite !plan_from_done by lia.
  - destruct (Z.lt_ge_cases start total) as [Hlt|Hge].
    + destruct bound' as [|bound']; [lia|].
      rewrite !plan_from_step by lia. f_equal. apply IH; lia.
    + now rewrite !plan_from_done by lia.
Qed.

End Planner.

(* ================================================================= *)
(** ** The loop *)

Section Loop.

Context {ext : Externals}.

Variable tokens : list Z.
Variables max_chunk_size overlap_tokens : Z.
Variable metadata_block : string.

Let total : Z := Z.of_nat (length tokens).

Local Abbreviation loop :=
  (chunk_loop tokens max_chunk_size overlap_tokens metadata_block).

(** The slice of the loop is the slice of the specification as long as
    [start] is not negative. *)
Lemma chunk_slice_spec (start : Z) :
  0 <= start ->
  chunk_slice tokens max_chunk_size overlap_tokens start =
  if start =? 0
  then py_slice tokens start (Z.min (start + max_chunk_size) total)
  else py_slice tokens (start - overlap_tokens)
         (Z.min (start + max_chunk_size) total).
Proof.
  intros Hs. unfold chunk_slice. fold total.
  destruct (Z.ltb_spec 0 start), (Z.eqb_spec start 0); try lia; reflexivity.
Qed.

(** Every call of the service adds one entry to the record. *)
Lemma convert_calls (chunk previous block : string) (incl : bool) (w : world) :
  exists req answer,
    calls (snd (convert_chunk_to_markdown chunk previous block incl w))
    = (calls w ++ [(req, answer)])%list
    /\ fst (convert_chunk_to_markdown chunk previous block incl w)
       = match answer with
         | Some output_text => PyStr.strip output_text
         | None => ""
         end.
Proof.
  unfold convert_chunk_to_markdown.
  destruct (invoke_model _ (svc w)) as [answer svc'].
  eexists; exists answer. destruct answer; simpl; split; reflexivity.
Qed.

(** The windows the loop computes are the windows of the plan, in
    order; all of them when the loop runs to its end; and the loop stops
    by itself within as many turns as tokens are left. *)
Lemma chunk_loop_plan :
  0 < max_chunk_size ->
  forall (fuel : nat) (st st' : loop_state) (exit : loop_exit) (bound : nat),
    0 <= start st ->
    total - start st <= Z.of_nat bound ->
    loop fuel st = (st', exit) ->
    exists new rest,
      emitted st' = (emitted st ++ new)%list
      /\ Spec.plan_from tokens max_chunk_size overlap_tokens bound
           (chunk_index st) (start st) = (new ++ rest)%list
      /\ (exit = Exhausted -> rest = [])
      /\ ((0 < fuel)%nat -> total - start st < Z.of_nat fuel ->
          exit <> NoFuel).
Proof.
  intros Hmax. induction fuel as [|fuel IH]; intros st st' exit bound H0 Hb Hrun.
  - simpl in Hrun. inversion Hrun; subst.
    exists [], (Spec.plan_from tokens max_chunk_size overlap_tokens bound
                  (chunk_index st') (start st')).
    rewrite app_nil_r. repeat split; try discriminate. lia.
  - simpl in Hrun. fold total in Hrun.
    destruct (Z.ltb_spec (start st) total) as [Hlt|Hge].
    + destruct bound as [|bound]; [lia|].
      rewrite plan_from_step by (fold total; lia).
      rewrite <- chunk_slice_spec by lia.
      destruct (convert_chunk_to_markdown _ _ _ _ _) as [markdown_chunk w'].
      destruct (String.eqb _ "").
      * inversion Hrun; subst; simpl.
        eexists [_], _. repeat split; discriminate.
      * destruct (PyStr.contains END markdown_chunk).
        -- inversion Hrun; subst; simpl.
           eexists [_], _. repeat split; discriminate.
        -- apply IH with (bound := bound) in Hrun; simpl; try lia.
           destruct Hrun as (new & rest & He & Hp & Hx & Hf).
           simpl in *.
           eexists (_ :: new), rest. rewrite He, <- app_assoc. simpl.
           split; [reflexivity|]. split; [now rewrite Hp|].
           split; [assumption|]. intros _ Hfuel. apply Hf; lia.
    + inversion Hrun; subst.
      exists [], []. rewrite app_nil_r.
      rewrite plan_from_done by (fold total; lia).
      repeat split; discriminate.
Qed.

End Loop.

(* ================================================================= *)
(** ** Window coverage *)

(** The worked example: 2350 tokens, windows of 1000, overlap 100. *)
Lemma plan_example (tokens : list Z) :
  length tokens = 2350%nat ->
  map (fun w => (w_index w, w_tokens w)) (Spec.plan tokens 1000 100) =
  [ (0, py_slice tokens 0 1000);
    (1, py_slice tokens 900 2000);
    (2, py_slice tokens 1900 2350) ].
Proof.
  intros Hlen. unfold Spec.plan.
  assert (Htotal : Z.of_nat (length tokens) = 2350) by lia.
  rewrite Hlen at 1.
  change 2350%nat with (S (S (S 2347%nat))).
  rewrite !plan_from_step by lia.
  rewrite plan_from_done by lia.
  rewrite Htotal. reflexivity.
Qed.

(* ================================================================= *)
(** ** Overlap *)

Section Overlap.

Variable tokens : list Z.
Variables max_chunk_size overlap_tokens : Z.
Hypothesis max_positive : 0 < max_chunk_size.
Hypothesis overlap_fits : 0 <= overlap_tokens <= max_chunk_size.

(** Two neighbours in the plan share the [overlap_tokens] tokens
    before the start of the second. *)
Lemma plan_from_overlap (i : nat) :
  forall (bound : nat) (index start : Z) (w1 w2 : window),
    start = 0 \/ overlap_tokens <= start ->
    0 <= start ->
    nth_error (Spec.plan_from tokens max_chunk_size overlap_tokens bound
                 index start) i = Some w1 ->
    nth_error (Spec.plan_from tokens max_chunk_size overlap_tokens bound
                 index start) (S i) = Some w2 ->
    Spec.first_tokens overlap_tokens (w_tokens w2)
    = py_slice tokens (w_start w2 - overlap_tokens) (w_start w2)
    /\ Spec.last_tokens overlap_tokens (w_tokens w1)
       = py_slice tokens (w_start w2 - overlap_tokens) (w_start w2)
    /\ overlap_tokens <= w_start w2 <= Z.of_nat (length tokens).
Proof.
  induction i as [|i IH]; intros bound index start w1 w2 Hinv H0 H1 H2.
  - destruct bound as [|bound]; [discriminate|].
    destruct (Z.lt_ge_cases start (Z.of_nat (length tokens))) as [Hlt|Hge];
      [|rewrite plan_from_done in H1 by lia; discriminate].
    rewrite plan_from_step in H1, H2 by lia. simpl in H1, H2.
    destruct bound as [|bound]; [discriminate|].
    destruct (Z.lt_ge_cases (start + max_chunk_size) (Z.of_nat (length tokens)))
      as [Hlt'|Hge'];
      [|rewrite plan_from_done in H2 by lia; discriminate].
    rewrite plan_from_step in H2 by lia. simpl in H2.
    inversion H1; subst w1; clear H1. inversion H2; subst w2; clear H2.
    simpl.
    destruct (Z.eqb_spec (start + max_chunk_size) 0) as [|_]; [lia|].
    rewrite (Z.min_l (start + max_chunk_size)) by lia.
    split; [|split; [|lia]].
    + rewrite first_tokens_slice by lia. f_equal. lia.
    + destruct (Z.eqb_spec start 0) as [E|E].
      * rewrite last_tokens_slice by lia. reflexivity.
      * rewrite last_tokens_slice by lia. reflexivity.
  - destruct bound as [|bound]; [discriminate|].
    destruct (Z.lt_ge_cases start (Z.of_nat (length tokens))) as [Hlt|Hge];
      [|rewrite plan_from_done in H1 by lia; discriminate].
    rewrite plan_from_step in H1, H2 by lia.
    change (nth_error (?x :: ?l) (S ?n)) with (nth_error l n) in H1, H2.
    eapply IH; [| |exact H1|exact H2]; lia.
Qed.

End Overlap.

(** C4, as the script behaves.  With a positive window size and an
    overlap between 0 and the window size, for every two consecutive
    windows the loop computes, the first [overlap_tokens] tokens of the
    later slice equal the last [overlap_tokens] tokens of the earlier
    slice; both are the [overlap_tokens] tokens of the document right
    before the later window's start. *)
Theorem overlap_correctness {ext : Externals} (tokens : list Z)
    (max_chunk_size overlap_tokens : Z) (metadata_block : string)
    (fuel : nat) (w : world) (i : nat) (previous current : window) :
  0 < max_chunk_size ->
  0 <= overlap_tokens <= max_chunk_size ->
  let windows :=
    emitted (fst (chunk_loop tokens max_chunk_size overlap_tokens
                    metadata_block fuel (initial_state w))) in
  nth_error windows i = Some previous ->
  nth_error windows (S i) = Some current ->
  Spec.first_tokens overlap_tokens (w_tokens current)
  = Spec.last_tokens overlap_tokens (w_tokens previous)
  /\ Spec.first_tokens overlap_tokens (w_tokens current)
     = py_slice tokens (w_start current - overlap_tokens) (w_start current)
  /\ Z.of_nat (length (Spec.first_tokens overlap_tokens (w_tokens current)))
     = overlap_tokens.
Proof.
  intros Hmax Hov windows H1 H2.
  destruct (chunk_loop tokens max_chunk_size overlap_tokens metadata_block
              fuel (initial_state w)) as [st' exit] eqn:Hrun.
  apply chunk_loop_plan with (bound := length tokens) in Hrun;
    simpl; try lia.
  destruct Hrun as (new & rest & He & Hp & _ & _). simpl in He, Hp.
  subst windows. unfold fst in H1, H2. rewrite He in H1, H2.
  assert (Hi : (S i < length new)%nat).
  { apply nth_error_Some. congruence. }
  assert (P1 : nth_error (new ++ rest) i = Some previous)
    by (rewrite nth_error_app1 by lia; assumption).
  assert (P2 : nth_error (new ++ rest) (S i) = Some current)
    by (rewrite nth_error_app1 by lia; assumption).
  rewrite <- Hp in P1, P2.
  destruct (@plan_from_overlap tokens max_chunk_size overlap_tokens Hmax Hov
              i (length tokens) 0 0 previous current
              (or_introl eq_refl) (Z.le_refl 0) P1 P2) as (F & L & B).
  split; [congruence|]. split; [assumption|].
  rewrite F, py_slice_length by lia. lia.
Qed.

(* ================================================================= *)
(** ** Calls and kept answers *)

Section Calls.

Context {ext : Externals}.

Variable tokens : list Z.
Variables max_chunk_size overlap_tokens : Z.
Variable metadata_block : string.

(** What a run of the loop adds: one call per window; every answer is
    kept, except that a run left through the blank-answer [break] ends
    with one call that is dropped. *)
Lemma chunk_loop_calls (fuel : nat) :
  forall (st st' : loop_state) (exit : loop_exit),
    chunk_loop tokens max_chunk_size overlap_tokens metadata_block fuel st
    = (st', exit) ->
    exists new_calls new_chunks,
      calls (outside st') = (calls (outside st) ++ new_calls)%list
      /\ markdown_chunks st' = (markdown_chunks st ++ new_chunks)%list
      /\ (length (emitted st') = length (emitted st) + length new_calls)%nat
      /\ match exit with
         | Starved =>
             exists before last,
               new_calls = (before ++ [last])%list
               /\ Forall2 kept before new_chunks /\ dropped last
         | _ => Forall2 kept new_calls new_chunks
         end.
Proof.
  induction fuel as [|fuel IH]; intros st st' exit Hrun; simpl in Hrun.
  - inversion Hrun; subst. exists [], []. rewrite !app_nil_r.
    repeat split; [simpl; lia | constructor].
  - destruct (start st <? Z.of_nat (length tokens)).
    + destruct (convert_calls
                  (decode (chunk_slice tokens max_chunk_size overlap_tokens
                             (start st)))
                  (previous_markdown st) metadata_block (chunk_index st =? 0)
                  (outside st)) as (req & answer & Hc & Ho).
      destruct (convert_chunk_to_markdown _ _ _ _ _) as [markdown_chunk w'].
      simpl in Hc, Ho.
      destruct (String.eqb_spec (PyStr.strip markdown_chunk) "") as [Hblank|Hfull].
      * inversion Hrun; subst; simpl.
        exists [(req, answer)], []. rewrite app_nil_r, length_app. simpl.
        repeat split; try assumption; try lia.
        exists [], (req, answer). repeat split; [constructor|].
        destruct answer as [output_text|]; [right | left; reflexivity].
        exists output_text. split; [reflexivity | assumption].
      * assert (Hkept : kept (req, answer) markdown_chunk).
        { destruct answer as [output_text|].
          - exists output_text. split; [reflexivity | assumption].
          - exfalso. apply Hfull. subst markdown_chunk. reflexivity. }
        destruct (PyStr.contains END markdown_chunk).
        -- inversion Hrun; subst; simpl.
           eexists [(req, answer)], [_].
           rewrite length_app. simpl.
           repeat split; try assumption; try lia.
           constructor; [assumption | constructor].
        -- apply IH in Hrun.
           destruct Hrun as (cs & chunks & H1 & H2 & H3 & H4). simpl in *.
           exists ((req, answer) :: cs), (markdown_chunk :: chunks).
           rewrite H1, H2, H3, Hc, length_app, <- !app_assoc. simpl.
           repeat split; try lia.
           destruct exit; try (constructor; assumption).
           destruct H4 as (before & last & E & F & D).
           exists ((req, answer) :: before), last. subst cs.
           repeat split; [constructor|]; assumption.
    + inversion Hrun; subst. exists [], []. rewrite !app_nil_r.
      repeat split; [simpl; lia | constructor].
Qed.

(** A kept call is not a failed one. *)
Lemma kept_not_failed (l : list (invoke_request * option string))
    (chunks : list string) (i : nat) (req : invoke_request) :
  Forall2 kept l chunks -> nth_error l i <> Some (req, None).
Proof.
  intros HF. revert i. induction HF as [|c chunk l chunks Hk _ IH]; intros i.
  - destruct i; discriminate.
  - destruct i as [|i]; simpl.
    + intros E. inversion E; subst. destruct Hk as (o & Hs & _). discriminate.
    + apply IH.
Qed.

End Calls.

(* ================================================================= *)
(** ** The paths through process_html_in_chunks *)

Section Paths.

Context {ext : Externals}.

(** The keyword [with_metadata] is no parameter of
    [convert_chunk_to_markdown]: the call of the single-chunk branch
    fails while its arguments are bound, before the service is
    reached. *)
Lemma single_chunk_call (html_content : string) (w : world) :
  call_convert [AStr html_content] [("with_metadata", ABool true)] w
  = (inl TypeError, w).
Proof. reflexivity. Qed.

(** A run that called nothing. *)
Lemma new_calls_none (w : world) (o : outcome) :
  new_calls w {| result := o; planned := []; recorded := []; after := w |} = [].
Proof. unfold new_calls. simpl. apply skipn_all. Qed.

(** The calls of a run that went through the loop. *)
Lemma new_calls_loop (w : world) (o : outcome) (st : loop_state)
    (cs : list (invoke_request * option string)) :
  calls (outside st) = (calls w ++ cs)%list ->
  new_calls w {| result := o; planned := emitted st;
                 recorded := markdown_chunks st; after := outside st |} = cs.
Proof.
  intros H. unfold new_calls. simpl. rewrite H.
  rewrite skipn_app, skipn_all, Nat.sub_diag. reflexivity.
Qed.

End Paths.

(** C7. Failure of the conversion service.  When a call of the service
    made by a run fails, that call is the last one of the run (no
    retry, no further window), one window was computed per call, the
    chunks kept are exactly the stripped answers of the calls before it
    (nothing is kept for the failing window), and the run returns the
    pair built from these chunks and the metadata: nothing is raised. *)
Theorem conversion_failure {ext : Externals} (html_content : string)
    (max_chunk_size overlap_tokens : Z) (with_metadata : bool)
    (fuel : nat) (w : world) (i : nat) (req : invoke_request) :
  let r := process_html_in_chunks html_content max_chunk_size overlap_tokens
             with_metadata fuel w in
  nth_error (new_calls w r) i = Some (req, None) ->
  length (new_calls w r) = S i
  /\ length (planned r) = S i
  /\ Forall2 kept (firstn i (new_calls w r)) (recorded r)
  /\ result r =
     Returned
       (ensure_front_matter with_metadata (extract_metadata html_content)
          (make_metadata_block with_metadata (extract_metadata html_content))
          (clean (recorded r)))
       (MetaDict (extract_metadata html_content)).
Proof.
  intros r. subst r. unfold process_html_in_chunks.
  destruct (match find "body" (html_parser html_content) with
            | Some body => negb (PyStr.truthy (get_text_strip body))
            | None => true
            end);
    [rewrite new_calls_none; destruct i; discriminate|].
  destruct (encode html_content) as [all_tokens|];
    [|rewrite new_calls_none; destruct i; discriminate].
  destruct (MAX_TOKEN_LIMIT <? Z.of_nat (length all_tokens));
    [|rewrite single_chunk_call, new_calls_none; destruct i; discriminate].
  destruct (encode (strip_head html_content)) as [tokens|];
    [|rewrite new_calls_none; destruct i; discriminate].
  destruct (chunk_loop _ _ _ _ _ _) as [st exit] eqn:Hrun.
  apply chunk_loop_calls in Hrun.
  destruct Hrun as (cs & chunks & Hc & Hm & He & Hx). simpl in Hc, Hm, He.
  assert (Hfailed :
            nth_error cs i = Some (req, None) ->
            exit = Starved /\ length cs = S i /\ Forall2 kept (firstn i cs) chunks).
  { intros Hi. destruct exit;
      try (exfalso; exact (kept_not_failed i Hx Hi)).
    destruct Hx as (before & last & E & F & D). subst cs.
    destruct (Nat.lt_ge_cases i (length before)) as [Hlt|Hge].
    - rewrite nth_error_app1 in Hi by assumption.
      exfalso. exact (kept_not_failed i F Hi).
    - assert (Hlen : (i < length (before ++ [last]))%nat)
        by (apply nth_error_Some; congruence).
      rewrite length_app in *. simpl in *.
      assert (i = length before) by lia. subst i.
      rewrite firstn_app, firstn_all, Nat.sub_diag. simpl.
      rewrite app_nil_r. repeat split; [lia | assumption]. }
  destruct exit; rewrite (@new_calls_loop _ w _ st cs Hc); intros Hi;
    destruct (Hfailed Hi) as (Hex & Hlen & Hkept); try discriminate.
  simpl. rewrite Hm. repeat split; [assumption | lia | assumption].
Qed.

(* ================================================================= *)
(** ** Documents without content *)

(** Text made of blank strings only is lost in [get_text(strip=True)]. *)
Lemma blank_strings_no_text (l : list string) :
  Forall (fun s => PyStr.strip s = "") l ->
  filter PyStr.truthy (map PyStr.strip l) = [].
Proof.
  induction 1 as [|s l Hs _ IH]; simpl; [reflexivity|].
  rewrite Hs. simpl. exact IH.
Qed.

Lemma get_text_strip_blank (body : node) :
  Forall (fun s => PyStr.strip s = "") (text_strings body) ->
  get_text_strip body = "".
Proof.
  intros H. unfold get_text_strip.
  rewrite blank_strings_no_text by assumption. reflexivity.
Qed.

(** C8. Empty body.  A document whose body element holds no text, or
    only strings of white space, returns the pair of the empty string
    and the empty metadata map, whatever its head says; nothing is
    raised, no window is computed and the service is not called. *)
Theorem empty_body {ext : Externals} (html_content : string) (body : node)
    (max_chunk_size overlap_tokens : Z) (with_metadata : bool)
    (fuel : nat) (w : world) :
  find "body" (html_parser html_content) = Some body ->
  Forall (fun s => PyStr.strip s = "") (text_strings body) ->
  process_html_in_chunks html_content max_chunk_size overlap_tokens
    with_metadata fuel w
  = {| result := Returned "" (MetaDict []); planned := []; recorded := [];
       after := w |}.
Proof.
  intros Hbody Hblank. unfold process_html_in_chunks.
  rewrite Hbody, (get_text_strip_blank _ Hblank). reflexivity.
Qed.

(** C10. No body element.  A document in which the parser finds no
    [body] element returns the pair of the empty string and the empty
    metadata map, even when it holds text; no window is computed and
    the service is not called. *)
Theorem no_body_element {ext : Externals} (html_content : string)
    (max_chunk_size overlap_tokens : Z) (with_metadata : bool)
    (fuel : nat) (w : world) :
  find "body" (html_parser html_content) = None ->
  process_html_in_chunks html_content max_chunk_size overlap_tokens
    with_metadata fuel w
  = {| result := Returned "" (MetaDict []); planned := []; recorded := [];
       after := w |}.
Proof.
  intros Hbody. unfold process_html_in_chunks.
  rewrite Hbody. reflexivity.
Qed.

(* ================================================================= *)
(** ** The single-chunk branch *)

(** C1. Single-window equivalence.  A document with text in its body
    and a token count (head included) of at most [MAX_TOKEN_LIMIT]
    takes the single-chunk branch, and there the call of
    [convert_chunk_to_markdown] raises [TypeError]: no pair is returned
    and the service is never asked to convert the document. *)
Theorem single_window_raises {ext : Externals} (html_content : string)
    (body : node) (all_tokens : list Z)
    (max_chunk_size overlap_tokens : Z) (with_metadata : bool)
    (fuel : nat) (w : world) :
  find "body" (html_parser html_content) = Some body ->
  get_text_strip body <> "" ->
  encode html_content = Some all_tokens ->
  Z.of_nat (length all_tokens) <= MAX_TOKEN_LIMIT ->
  process_html_in_chunks html_content max_chunk_size overlap_tokens
    with_metadata fuel w
  = {| result := Raised TypeError; planned := []; recorded := [];
       after := w |}.
Proof.
  intros Hbody Htext Henc Hlimit. unfold process_html_in_chunks.
  rewrite Hbody, Henc.
  destruct (get_text_strip body) as [|c s] eqn:Ht; [contradiction|].
  cbn [PyStr.truthy negb].
  destruct (Z.ltb_spec MAX_TOKEN_LIMIT (Z.of_nat (length all_tokens))); [lia|].
  rewrite single_chunk_call. reflexivity.
Qed.

(* ================================================================= *)
(** ** The configuration is not checked *)

Section FirstWindow.

Context {ext : Externals}.

Variable tokens : list Z.
Variables max_chunk_size overlap_tokens : Z.
Variable metadata_block : string.

(** The loop only ever adds windows. *)
Lemma chunk_loop_emitted (fuel : nat) :
  forall (st st' : loop_state) (exit : loop_exit),
    chunk_loop tokens max_chunk_size overlap_tokens metadata_block fuel st
    = (st', exit) ->
    exists new, emitted st' = (emitted st ++ new)%list.
Proof.
  induction fuel as [|fuel IH]; intros st st' exit Hrun; simpl in Hrun.
  - inversion Hrun; subst. exists []. now rewrite app_nil_r.
  - destruct (start st <? Z.of_nat (length tokens)).
    + destruct (convert_chunk_to_markdown _ _ _ _ _) as [markdown_chunk w'].
      destruct (String.eqb _ "").
      * inversion Hrun; subst; simpl. eexists; reflexivity.
      * destruct (PyStr.contains END markdown_chunk).
        -- inversion Hrun; subst; simpl. eexists; reflexivity.
        -- apply IH in Hrun. destruct Hrun as (new & He). simpl in He.
           rewrite He, <- app_assoc. eexists; reflexivity.
    + inversion Hrun; subst. exists []. now rewrite app_nil_r.
Qed.

(** With tokens to convert and fuel for one turn, the loop computes
    the window [tokens[0:min(max_chunk_size, total)]] and calls the
    service, whatever the window size and the overlap are. *)
Lemma chunk_loop_first (fuel : nat) (w : world) :
  tokens <> [] ->
  forall (st' : loop_state) (exit : loop_exit),
    chunk_loop tokens max_chunk_size overlap_tokens metadata_block (S fuel)
      (initial_state w) = (st', exit) ->
    (exists more,
        emitted st' =
        {| w_index := 0; w_start := 0;
           w_end := Z.min max_chunk_size (Z.of_nat (length tokens));
           w_tokens :=
             py_slice tokens 0
               (Z.min max_chunk_size (Z.of_nat (length tokens))) |} :: more)
    /\ exists req answer rest,
        calls (outside st') = (calls w ++ (req, answer) :: rest)%list.
Proof.
  intros Hne st' exit Hrun.
  assert (Hcalls := chunk_loop_calls _ _ _ _ _ _ Hrun).
  destruct Hcalls as (cs & chunks & Hc & _ & Hlen & _). simpl in Hc, Hlen.
  simpl in Hrun.
  destruct (Z.ltb_spec 0 (Z.of_nat (length tokens))) as [_|Hz];
    [|destruct tokens; [congruence | simpl in Hz; lia]].
  unfold chunk_slice in Hrun. simpl in Hrun.
  destruct (convert_chunk_to_markdown _ _ _ _ _) as [markdown_chunk w'].
  assert (Hfirst : exists more,
             emitted st' =
             {| w_index := 0; w_start := 0;
                w_end := Z.min max_chunk_size (Z.of_nat (length tokens));
                w_tokens :=
                  py_slice tokens 0
                    (Z.min max_chunk_size (Z.of_nat (length tokens))) |}
             :: more).
  { destruct (String.eqb _ "").
    - inversion Hrun; subst; simpl. eexists; reflexivity.
    - destruct (PyStr.contains END markdown_chunk).
      + inversion Hrun; subst; simpl. eexists; reflexivity.
      + apply chunk_loop_emitted in Hrun. destruct Hrun as (new & He).
        simpl in He. rewrite He. eexists; reflexivity. }
  split; [exact Hfirst|].
  destruct Hfirst as (more & He). rewrite He in Hlen. simpl in Hlen.
  destruct cs as [|[req answer] rest]; [discriminate|].
  exists req, answer, rest. exact Hc.
Qed.

End FirstWindow.

(** C2, as the script behaves.  [process_html_in_chunks] never looks
    at the relation between [overlap_tokens] and [max_chunk_size] nor at
    the sign of [max_chunk_size]: for every value of the two, a document
    with text in its body, more tokens than [MAX_TOKEN_LIMIT] and a
    body that encodes to at least one token is not rejected -- nothing
    is raised -- and the service is called, first for the window
    [tokens[0:min(max_chunk_size, total)]]. *)
Theorem configuration_not_checked {ext : Externals} (html_content : string)
    (body : node) (all_tokens tokens : list Z)
    (max_chunk_size overlap_tokens : Z) (with_metadata : bool)
    (fuel : nat) (w : world) :
  find "body" (html_parser html_content) = Some body ->
  get_text_strip body <> "" ->
  encode html_content = Some all_tokens ->
  MAX_TOKEN_LIMIT < Z.of_nat (length all_tokens) ->
  encode (strip_head html_content) = Some tokens ->
  tokens <> [] ->
  let r := process_html_in_chunks html_content max_chunk_size overlap_tokens
             with_metadata (S fuel) w in
  (forall e, result r <> Raised e)
  /\ (exists req answer rest, new_calls w r = (req, answer) :: rest)
  /\ exists more,
       planned r =
       {| w_index := 0; w_start := 0;
          w_end := Z.min max_chunk_size (Z.of_nat (length tokens));
          w_tokens :=
            py_slice tokens 0
              (Z.min max_chunk_size (Z.of_nat (length tokens))) |} :: more.
Proof.
  intros Hbody Htext Henc Hlimit Hbodyenc Hne r. subst r.
  unfold process_html_in_chunks.
  rewrite Hbody, Henc.
  destruct (get_text_strip body) as [|c s] eqn:Ht; [contradiction|].
  cbn [PyStr.truthy negb].
  destruct (Z.ltb_spec MAX_TOKEN_LIMIT (Z.of_nat (length all_tokens))); [|lia].
  rewrite Hbodyenc.
  destruct (chunk_loop _ _ _ _ _ _) as [st exit] eqn:Hrun.
  destruct (@chunk_loop_first _ tokens max_chunk_size overlap_tokens _ fuel w
              Hne st exit Hrun)
    as ((more & He) & req & answer & rest & Hc).
  assert (Hnew : forall o,
             new_calls w {| result := o; planned := emitted st;
                            recorded := markdown_chunks st;
                            after := outside st |} = (req, answer) :: rest).
  { intros o. apply new_calls_loop. exact Hc. }
  destruct exit; simpl; rewrite Hnew;
    (split; [intros e; discriminate|]);
    (split; [exists req, answer, rest; reflexivity|]);
    exists more; exact He.
Qed.

(* ================================================================= *)
(** ** The front matter *)


Lemma prefix_empty (s : string) : String.prefix "" s = true.
Proof. destruct s; reflexivity. Qed.



(* ================================================================= *)
(** ** Metadata *)

(** Running a list of assignments on a [dict]. *)
Lemma dict_get_set (k k' v : string) (d : dict) :
  dict_get k (dict_set k' v d) =
  if String.eqb k' k then Some v else dict_get k d.
Proof.
  induction d as [|[k0 v0] d IH]; simpl.
  - reflexivity.
  - destruct (String.eqb_spec k0 k') as [E|E]; simpl.
    + subst k0. destruct (String.eqb_spec k' k); reflexivity.
    + destruct (String.eqb_spec k0 k) as [E'|E'].
      * subst k0. destruct (String.eqb_spec k' k); [congruence | reflexivity].
      * exact IH.
Qed.

Lemma dict_keys_set (k v : string) (d : dict) :
  dict_keys (dict_set k v d) =
  if existsb (String.eqb k) (dict_keys d)
  then dict_keys d
  else (dict_keys d ++ [k])%list.
Proof.
  unfold dict_keys. induction d as [|[k0 v0] d IH]; simpl.
  - reflexivity.
  - rewrite (String.eqb_sym k k0).
    destruct (String.eqb k0 k); simpl; [reflexivity|].
    rewrite IH.
    destruct (existsb (String.eqb k) (map fst d)); reflexivity.
Qed.

Lemma assign_get (l : list (string * string)) :
  forall (d : dict) (k : string),
    dict_get k (fold_left assign l d) =
    match last_assigned k l with
    | Some v => Some v
    | None => dict_get k d
    end.
Proof.
  induction l as [|[k' v] l IH]; intros d k; simpl; [reflexivity|].
  rewrite IH. unfold assign at 1. simpl.
  destruct (last_assigned k l); [reflexivity|].
  rewrite dict_get_set. destruct (String.eqb k' k); reflexivity.
Qed.

Lemma filter_filter {A : Type} (f g : A -> bool) (l : list A) :
  filter f (filter g l) = filter (fun x => g x && f x) l.
Proof.
  induction l as [|x l IH]; simpl; [reflexivity|].
  destruct (g x); simpl; [destruct (f x)|]; now rewrite IH.
Qed.

Lemma assign_keys (l : list (string * string)) :
  forall d : dict,
    dict_keys (fold_left assign l d) =
    (dict_keys d ++
     filter (fun k => negb (existsb (String.eqb k) (dict_keys d)))
       (first_keys (map fst l)))%list.
Proof.
  induction l as [|[k v] l IH]; intros d; simpl.
  - now rewrite app_nil_r.
  - rewrite IH. change (assign d (k, v)) with (dict_set k v d).
    rewrite dict_keys_set, filter_filter.
    destruct (existsb (String.eqb k) (dict_keys d)) eqn:Hin; simpl.
    + f_equal. apply filter_ext_in. intros k' _.
      destruct (String.eqb_spec k' k) as [E|E]; simpl; [|reflexivity].
      subst k'. now rewrite Hin.
    + rewrite <- app_assoc. simpl. do 2 f_equal.
      apply filter_ext_in. intros k' _.
      rewrite existsb_app. simpl. rewrite orb_false_r.
      rewrite (String.eqb_sym k' k), negb_orb.
      destruct (String.eqb k k'), (existsb (String.eqb k') (dict_keys d));
        reflexivity.
Qed.

Lemma first_keys_NoDup (l : list string) : NoDup (first_keys l).
Proof.
  induction l as [|k l IH]; simpl; constructor.
  - intros Hin. apply filter_In in Hin. destruct Hin as [_ Hk].
    rewrite String.eqb_refl in Hk. discriminate.
  - apply NoDup_filter. exact IH.
Qed.

(** [extract_metadata] runs its assignments, in order, on the empty
    [dict]. *)
Lemma extract_metadata_fold {ext : Externals} (html_content : string) :
  extract_metadata html_content = fold_left assign (assignments html_content) [].
Proof.
  unfold extract_metadata, assignments. rewrite fold_left_app.
  set (s := html_parser html_content).
  assert (Ht : set_title s [] = fold_left assign (title_assignment s) []).
  { unfold set_title, title_assignment.
    destruct (find "title" s) as [title|]; [|reflexivity].
    destruct (string_of title) as [text|]; [|reflexivity].
    destruct (PyStr.truthy text); reflexivity. }
  rewrite <- Ht. generalize (set_title s []).
  induction (find_all "meta" s) as [|meta metas IH]; intros d; simpl;
    [reflexivity|].
  rewrite fold_left_app, IH. f_equal.
  unfold set_meta, meta_assignment.
  destruct (get "name" meta) as [name|]; [|reflexivity].
  destruct (PyStr.truthy name); reflexivity.
Qed.

(** C9, as the script behaves.  [extract_metadata] assigns the
    stripped string of the title element to ["title"] when that string
    exists and is not empty, and then, for every [meta] element of the
    document whose [name] attribute is present and not empty, in
    document order, the stripped [content] attribute -- the empty
    string when the attribute is missing -- to the stripped name.  The
    resulting map gives every key the value of its last assignment,
    lists the keys once each in the order of their first assignment,
    and is empty when nothing is assigned. *)
Theorem metadata_assignments {ext : Externals} (html_content : string) :
  let metadata := extract_metadata html_content in
  let assigned := assignments html_content in
  (forall key, dict_get key metadata = last_assigned key assigned)
  /\ dict_keys metadata = first_keys (map fst assigned)
  /\ NoDup (dict_keys metadata)
  /\ (assigned = [] -> metadata = [])
  /\ (forall meta name,
         get "name" meta = Some name -> PyStr.truthy name = true ->
         get "content" meta = None ->
         meta_assignment meta = [(PyStr.strip name, "")])
  /\ (forall meta name content,
         get "name" meta = Some name -> PyStr.truthy name = true ->
         get "content" meta = Some content ->
         meta_assignment meta = [(PyStr.strip name, PyStr.strip content)])
  /\ (forall meta,
         get "name" meta = None \/ get "name" meta = Some "" ->
         meta_assignment meta = []).
Proof.
  intros metadata assigned. subst metadata assigned.
  rewrite extract_metadata_fold.
  assert (Hkeys :
            dict_keys (fold_left assign (assignments html_content) [])
            = first_keys (map fst (assignments html_content))).
  { rewrite assign_keys. simpl.
    induction (first_keys _) as [|k l IH]; simpl; congruence. }
  split; [|split; [|split; [|split; [|split; [|split]]]]].
  - intros key. rewrite assign_get.
    destruct (last_assigned key (assignments html_content)); reflexivity.
  - exact Hkeys.
  - rewrite Hkeys. apply first_keys_NoDup.
  - intros E. rewrite E. reflexivity.
  - intros meta name Hn Ht Hc. unfold meta_assignment, get_default.
    rewrite Hn, Ht, Hc. reflexivity.
  - intros meta name content Hn Ht Hc. unfold meta_assignment, get_default.
    rewrite Hn, Ht, Hc. reflexivity.
  - intros meta [Hn|Hn]; unfold meta_assignment; rewrite Hn; reflexivity.
Qed.

(* ================================================================= *)
(** ** Runs in the sample environment *)

Section Runs.

Import Sample.

Lemma overlap_correctness_witness :
  0 < 4 /\ 0 <= 2 <= 4
  /\ Spec.first_tokens 2 (w_tokens second_of_10)
     = Spec.last_tokens 2 (w_tokens first_of_10)
  /\ Spec.first_tokens 2 (w_tokens second_of_10) = py_slice tokens_10 2 4.
Proof.
  split; [lia|]. split; [lia|].
  destruct (@overlap_correctness (externals always_ok) tokens_10 4 2 ""
              10 (fresh always_ok) 0 first_of_10 second_of_10
              ltac:(lia) ltac:(lia) eq_refl eq_refl) as (H1 & H2 & _).
  split; [exact H1 | exact H2].
Defined.

Lemma single_window_raises_witness :
  @find "body" (sample_parser small_html)
  = Some (Tag "body" [] [Tag "p" [] [text "Hi"]])
  /\ Z.of_nat (length (tokens_of small_html)) <= MAX_TOKEN_LIMIT
  /\ run_on always_ok small_html 1000 100
     = {| result := Raised TypeError; planned := []; recorded := [];
          after := fresh always_ok |}.
Proof.
  split; [reflexivity|]. split; [vm_compute; discriminate|].
  apply (@single_window_raises (externals always_ok) small_html
           (Tag "body" [] [Tag "p" [] [text "Hi"]]) (tokens_of small_html)).
  - reflexivity.
  - vm_compute. discriminate.
  - reflexivity.
  - vm_compute. discriminate.
Defined.

Lemma empty_body_witness :
  @find "body" (sample_parser blank_html)
  = Some (Tag "body" [] [text " "; Tag "p" [] [text " "]; text " "])
  /\ run_on always_ok blank_html 1000 100
     = {| result := Returned "" (MetaDict []); planned := []; recorded := [];
          after := fresh always_ok |}.
Proof.
  split; [reflexivity|].
  apply (@empty_body (externals always_ok) blank_html
           (Tag "body" [] [text " "; Tag "p" [] [text " "]; text " "])).
  - reflexivity.
  - repeat constructor.
Defined.

Lemma no_body_element_witness :
  @find "body" (sample_parser fragment_html) = None
  /\ get_text_strip (Tag "p" [] [text "Hello"]) = "Hello"
  /\ run_on always_ok fragment_html 1000 100
     = {| result := Returned "" (MetaDict []); planned := []; recorded := [];
          after := fresh always_ok |}.
Proof.
  split; [reflexivity|]. split; [reflexivity|].
  apply (@no_body_element (externals always_ok) fragment_html).
  reflexivity.
Defined.

Lemma conversion_failure_witness :
  answers_of (run_on fails_third large_html 5000 100)
  = [Some "# Part"; Some "# Part"; None]
  /\ length (planned (run_on fails_third large_html 5000 100)) = 3%nat
  /\ recorded (run_on fails_third large_html 5000 100) = ["# Part"; "# Part"]
  /\ result (run_on fails_third large_html 5000 100) =
     Returned (large_block ++ "# Part" ++ PyStr.nl ++ "# Part")
       (MetaDict large_metadata).
Proof.
  destruct (@conversion_failure (externals fails_third) large_html 5000 100
              true 10 (fresh fails_third) 2
              (fst (nth 2 (new_calls (fresh fails_third)
                             (run_on fails_third large_html 5000 100))
                      (make_request "", None))))
    as (_ & Hp & _ & Hr).
  - vm_compute. reflexivity.
  - split; [vm_compute; reflexivity|].
    split; [exact Hp|].
    split; [vm_compute; reflexivity|].
    etransitivity; [exact Hr | vm_compute; reflexivity].
Defined.

(** C2 fails as stated: an overlap equal to the window size, and a
    window size of zero, are both accepted.  The first run makes four
    calls of the service and returns; the second keeps calling the
    service, with an empty window each time, until the fuel of ten
    turns is used up. *)
Lemma configuration_accepted :
  (result (run_on always_ok large_html 5000 5000) =
   Returned (large_block ++ "ok" ++ PyStr.nl ++ "ok" ++ PyStr.nl ++ "ok"
             ++ PyStr.nl ++ "ok")
     (MetaDict large_metadata)
   /\ answers_of (run_on always_ok large_html 5000 5000)
      = repeat (Some "ok") 4
   /\ map (fun w => Z.of_nat (length (w_tokens w)))
        (planned (run_on always_ok large_html 5000 5000))
      = [5000; 10000; 10000; 6013])
  /\ (result (run_on always_ok large_html 0 100) = Unfinished
      /\ answers_of (run_on always_ok large_html 0 100)
         = repeat (Some "ok") 10
      /\ map w_tokens (planned (run_on always_ok large_html 0 100))
         = repeat [] 10).
Proof. vm_compute. repeat split. Qed.

Lemma configuration_not_checked_witness :
  5000 >= 5000
  /\ Z.of_nat (length (tokens_of large_html)) = 16098
  /\ Z.of_nat (length (tokens_of (serialize large_body))) = 16013
  /\ exists more,
       planned (run_on always_ok large_html 5000 5000)
       = {| w_index := 0; w_start := 0; w_end := 5000;
            w_tokens := py_slice (tokens_of (serialize large_body)) 0 5000 |}
         :: more.
Proof.
  split; [lia|]. split; [vm_compute; reflexivity|].
  split; [vm_compute; reflexivity|].
  destruct (@configuration_not_checked (externals always_ok) large_html
              large_body (tokens_of large_html)
              (tokens_of (serialize large_body)) 5000 5000 true 9
              (fresh always_ok)) as (_ & _ & more & Hp).
  - reflexivity.
  - vm_compute. discriminate.
  - reflexivity.
  - vm_compute. reflexivity.
  - reflexivity.
  - vm_compute. discriminate.
  - exists more. exact Hp.
Defined.

(** C5.  The sentinel survives the clean-up.  In the first run the
    service answers the first window of the long page with ["EENDND"];
    the answer holds the sentinel, so the loop stops after it; taking
    out the one match leaves ["END"], and the returned text ends with
    it.  In the second run no answer holds the sentinel, but the title of
    the page does, and the front matter that is put in front of the
    cleaned text brings it into the returned text. *)
Theorem sentinel_survives :
  (answers_of (run_on nested_sentinel large_html 1000 100) = [Some "EENDND"]
   /\ recorded (run_on nested_sentinel large_html 1000 100) = ["EENDND"]
   /\ clean ["EENDND"] = "END"
   /\ result (run_on nested_sentinel large_html 1000 100)
      = Returned (large_block ++ "END") (MetaDict large_metadata)
   /\ PyStr.contains END (large_block ++ "END") = true)
  /\ (answers_of (run_on always_ok weekend_html 10000 100)
      = [Some "ok"; Some "ok"]
      /\ result (run_on always_ok weekend_html 10000 100)
         = Returned (weekend_block ++ "ok" ++ PyStr.nl ++ "ok")
             (MetaDict [("title", "WEEKEND")])
      /\ PyStr.contains END (weekend_block ++ "ok" ++ PyStr.nl ++ "ok")
         = true).
Proof. vm_compute. repeat split. Qed.



(** C9 fails as stated: an annotation with a name and no content
    attribute is given the empty string, and an annotation with an
    empty name is left out although it has both attributes. *)
Lemma metadata_without_content :
  @extract_metadata (externals always_ok) meta_html
  = [("title", "T"); ("author", ""); ("k", "w")]
  /\ Spec.extract (sample_parser meta_html)
     = [("title", "T"); ("k", "w"); ("", "y")]
  /\ @extract_metadata (externals always_ok) meta_html
     <> Spec.extract (sample_parser meta_html).
Proof.
  split; [reflexivity|]. split; [reflexivity|].
  vm_compute. discriminate.
Qed.

End Runs.

(* ================================================================= *)
(** * Further properties of the script *)

(* ================================================================= *)
(** ** Stripping *)

Lemma lstrip_idempotent (s : string) :
  PyStr.lstrip (PyStr.lstrip s) = PyStr.lstrip s.
Proof.
  induction s as [|c s IH]; simpl; [reflexivity|].
  destruct (PyStr.is_space c) eqn:Hc; [exact IH|].
  simpl. now rewrite Hc.
Qed.

Lemma rstrip_idempotent (s : string) :
  PyStr.rstrip (PyStr.rstrip s) = PyStr.rstrip s.
Proof.
  induction s as [|c s IH]; simpl; [reflexivity|].
  destruct (PyStr.rstrip s) as [|d r] eqn:Hr.
  - destruct (PyStr.is_space c) eqn:Hc; simpl; [reflexivity|].
    now rewrite Hc.
  - change (PyStr.rstrip (String c (String d r))) with
      (match PyStr.rstrip (String d r) with
       | EmptyString =>
           if PyStr.is_space c then EmptyString else String c EmptyString
       | String e r' => String c (String e r')
       end).
    rewrite IH. reflexivity.
Qed.

(** A text without trailing white space keeps that after its leading
    white space is taken away. *)
Lemma rstrip_fixed_tail (c : ascii) (t : string) :
  PyStr.rstrip (String c t) = String c t -> PyStr.rstrip t = t.
Proof.
  simpl. destruct (PyStr.rstrip t) as [|d r] eqn:Hr.
  - destruct (PyStr.is_space c); intros E; [discriminate|].
    inversion E. reflexivity.
  - intros E. inversion E. reflexivity.
Qed.

Lemma rstrip_lstrip (t : string) :
  PyStr.rstrip t = t -> PyStr.rstrip (PyStr.lstrip t) = PyStr.lstrip t.
Proof.
  induction t as [|c t IH]; intros H; [reflexivity|].
  simpl PyStr.lstrip. destruct (PyStr.is_space c); [|exact H].
  apply IH. exact (rstrip_fixed_tail H).
Qed.

Lemma strip_idempotent (s : string) :
  PyStr.strip (PyStr.strip s) = PyStr.strip s.
Proof.
  unfold PyStr.strip.
  rewrite (rstrip_lstrip (rstrip_idempotent s)).
  apply lstrip_idempotent.
Qed.

Lemma strip_not_blank (s : string) : PyStr.strip s <> "" -> s <> "".
Proof. intros H E. subst s. apply H. reflexivity. Qed.

(* ================================================================= *)
(** ** One call of the service *)

Section OneCall.

Context {ext : Externals}.

(** The request and the result of one conversion, spelled out. *)
Lemma convert_run (chunk previous block : string) (incl : bool) (w : world) :
  let req :=
    make_request
      (if PyStr.truthy previous
       then continuation_prompt chunk previous
       else initial_prompt chunk block incl) in
  exists answer,
    calls (snd (convert_chunk_to_markdown chunk previous block incl w))
    = (calls w ++ [(req, answer)])%list
    /\ fst (convert_chunk_to_markdown chunk previous block incl w)
       = match answer with
         | Some output_text => PyStr.strip output_text
         | None => ""
         end.
Proof.
  intros req. unfold convert_chunk_to_markdown. fold req.
  destruct (invoke_model req (svc w)) as [answer svc'].
  exists answer. destruct answer; simpl; split; reflexivity.
Qed.

End OneCall.

(** X1.  [convert_chunk_to_markdown] always returns: it calls the
    service exactly once, and what it returns has no white space at
    either end; it is the empty string exactly when the call failed or
    the answer was blank. *)
Theorem convert_returns_stripped {ext : Externals}
    (html_chunk previous_markdown metadata_block : string)
    (include_metadata : bool) (w : world) :
  let out :=
    fst (convert_chunk_to_markdown html_chunk previous_markdown
           metadata_block include_metadata w) in
  let w' :=
    snd (convert_chunk_to_markdown html_chunk previous_markdown
           metadata_block include_metadata w) in
  PyStr.strip out = out
  /\ exists req answer,
       calls w' = (calls w ++ [(req, answer)])%list
       /\ (out = "" <->
           answer = None
           \/ exists output_text,
                answer = Some output_text /\ PyStr.strip output_text = "").
Proof.
  intros out w'. subst out w'.
  destruct (convert_run html_chunk previous_markdown metadata_block
              include_metadata w) as (answer & Hc & Ho).
  rewrite Ho. split.
  - destruct answer; [apply strip_idempotent | reflexivity].
  - eexists; exists answer. split; [exact Hc|].
    destruct answer as [output_text|]; split.
    + intros E. right. exists output_text. split; [reflexivity | exact E].
    + intros [E|(o & E & Hb)]; [discriminate|].
      inversion E; subst. exact Hb.
    + intros _. left. reflexivity.
    + reflexivity.
Qed.

(* ================================================================= *)
(** ** The trace of the loop *)

Section Trace.

Context {ext : Externals}.

Variable tokens : list Z.
Variables max_chunk_size overlap_tokens : Z.
Variable metadata_block : string.

(** What a run of the loop adds, by the way the loop is left: every
    call but the last passed; a run left through the sentinel [break]
    kept its last answer, one left through the blank [break] dropped
    it. *)
Lemma chunk_loop_trace (fuel : nat) :
  forall (st st' : loop_state) (exit : loop_exit),
    chunk_loop tokens max_chunk_size overlap_tokens metadata_block fuel st
    = (st', exit) ->
    exists cs chunks,
      calls (outside st') = (calls (outside st) ++ cs)%list
      /\ markdown_chunks st' = (markdown_chunks st ++ chunks)%list
      /\ match exit with
         | Starved =>
             exists before last,
               cs = (before ++ [last])%list
               /\ Forall2 passed before chunks /\ dropped last
         | Sentinel =>
             exists before last kept_before c,
               cs = (before ++ [last])%list
               /\ chunks = (kept_before ++ [c])%list
               /\ Forall2 passed before kept_before
               /\ kept last c /\ PyStr.strip c <> ""
               /\ PyStr.contains END c = true
         | _ => Forall2 passed cs chunks
         end.
Proof.
  induction fuel as [|fuel IH]; intros st st' exit Hrun; simpl in Hrun.
  - inversion Hrun; subst. exists [], []. rewrite !app_nil_r.
    repeat split. constructor.
  - destruct (start st <? Z.of_nat (length tokens)).
    + destruct (convert_calls
                  (decode (chunk_slice tokens max_chunk_size overlap_tokens
                             (start st)))
                  (previous_markdown st) metadata_block (chunk_index st =? 0)
                  (outside st)) as (req & answer & Hc & Ho).
      destruct (convert_chunk_to_markdown _ _ _ _ _) as [markdown_chunk w'].
      simpl in Hc, Ho.
      destruct (String.eqb_spec (PyStr.strip markdown_chunk) "") as [Hblank|Hfull].
      * inversion Hrun; subst; simpl.
        exists [(req, answer)], []. rewrite app_nil_r.
        repeat split; try assumption.
        exists [], (req, answer). repeat split; [constructor|].
        destruct answer as [output_text|]; [right | left; reflexivity].
        exists output_text. split; [reflexivity | assumption].
      * assert (Hkept : kept (req, answer) markdown_chunk).
        { destruct answer as [output_text|].
          - exists output_text. split; [reflexivity | assumption].
          - exfalso. apply Hfull. subst markdown_chunk. reflexivity. }
        destruct (PyStr.contains END markdown_chunk) eqn:Hend.
        -- inversion Hrun; subst; simpl.
           eexists [(req, answer)], [_].
           repeat split; try assumption.
           eexists [], (req, answer), [], _.
           repeat split; try eassumption. constructor.
        -- apply IH in Hrun.
           destruct Hrun as (cs & chunks & H1 & H2 & H4). simpl in *.
           exists ((req, answer) :: cs), (markdown_chunk :: chunks).
           rewrite H1, H2, Hc, <- !app_assoc. simpl.
           assert (Hp : passed (req, answer) markdown_chunk)
             by (repeat split; assumption).
           repeat split.
           destruct exit.
           ++ constructor; assumption.
           ++ destruct H4 as (before & last & E & F & D).
              exists ((req, answer) :: before), last. subst cs.
              repeat split; [constructor|]; assumption.
           ++ destruct H4 as (before & last & kb & c & E & E' & F & K & N & S).
              exists ((req, answer) :: before), last, (markdown_chunk :: kb), c.
              subst cs chunks. repeat split; try assumption.
              constructor; assumption.
           ++ constructor; assumption.
    + inversion Hrun; subst. exists [], []. rewrite !app_nil_r.
      repeat split. constructor.
Qed.

(** From the second window on, every request is a continuation of the
    chunk kept right before it. *)
Lemma chunk_loop_threaded (fuel : nat) :
  forall (st st' : loop_state) (exit : loop_exit),
    PyStr.truthy (previous_markdown st) = true ->
    chunk_loop tokens max_chunk_size overlap_tokens metadata_block fuel st
    = (st', exit) ->
    exists ws cs chunks,
      emitted st' = (emitted st ++ ws)%list
      /\ calls (outside st') = (calls (outside st) ++ cs)%list
      /\ markdown_chunks st' = (markdown_chunks st ++ chunks)%list
      /\ map fst cs =
         map (fun p => next_request (fst p) (snd p))
           (combine ws (previous_markdown st :: chunks)).
Proof.
  induction fuel as [|fuel IH]; intros st st' exit Hprev Hrun; simpl in Hrun.
  - inversion Hrun; subst. exists [], [], []. rewrite !app_nil_r.
    repeat split.
  - destruct (start st <? Z.of_nat (length tokens)).
    + destruct (convert_run
                  (decode (chunk_slice tokens max_chunk_size overlap_tokens
                             (start st)))
                  (previous_markdown st) metadata_block (chunk_index st =? 0)
                  (outside st)) as (answer & Hc & _).
      rewrite Hprev in Hc.
      destruct (convert_chunk_to_markdown _ _ _ _ _) as [markdown_chunk w'].
      simpl in Hc.
      destruct (String.eqb_spec (PyStr.strip markdown_chunk) "") as [Hblank|Hfull].
      * inversion Hrun; subst; simpl.
        eexists [_], [_], []. rewrite app_nil_r.
        repeat split; [exact Hc | reflexivity].
      * destruct (PyStr.contains END markdown_chunk).
        -- inversion Hrun; subst; simpl.
           eexists [_], [_], [_].
           repeat split; [exact Hc | reflexivity].
        -- apply IH in Hrun;
             [|simpl; destruct markdown_chunk;
               [exfalso; apply Hfull; reflexivity | reflexivity]].
           destruct Hrun as (ws & cs & chunks & H1 & H2 & H3 & H4).
           simpl in *.
           eexists (_ :: ws), (_ :: cs), (markdown_chunk :: chunks).
           rewrite H1, H2, H3, Hc, <- !app_assoc. simpl.
           repeat split. rewrite H4. reflexivity.
    + inversion Hrun; subst. exists [], [], []. rewrite !app_nil_r.
      repeat split.
Qed.

(** The requests of a run of the loop from its initial state. *)
Lemma chunk_loop_requests (fuel : nat) (w : world) :
  forall (st' : loop_state) (exit : loop_exit),
    chunk_loop tokens max_chunk_size overlap_tokens metadata_block fuel
      (initial_state w) = (st', exit) ->
    exists cs,
      calls (outside st') = (calls w ++ cs)%list
      /\ map fst cs =
         threaded_requests metadata_block (emitted st') (markdown_chunks st').
Proof.
  intros st' exit Hrun. destruct fuel as [|fuel]; simpl in Hrun.
  - inversion Hrun; subst. exists []. rewrite app_nil_r. split; reflexivity.
  - destruct (0 <? Z.of_nat (length tokens)).
    + destruct (convert_run
                  (decode (chunk_slice tokens max_chunk_size overlap_tokens 0))
                  "" metadata_block true w) as (answer & Hc & _).
      simpl in Hc, Hrun.
      destruct (convert_chunk_to_markdown _ _ _ _ _) as [markdown_chunk w'].
      simpl in Hc.
      destruct (String.eqb_spec (PyStr.strip markdown_chunk) "") as [Hblank|Hfull].
      * inversion Hrun; subst; simpl. eexists. split; [exact Hc|reflexivity].
      * destruct (PyStr.contains END markdown_chunk).
        -- inversion Hrun; subst; simpl. eexists. split; [exact Hc|reflexivity].
        -- apply chunk_loop_threaded in Hrun;
             [|simpl; destruct markdown_chunk;
               [exfalso; apply Hfull; reflexivity | reflexivity]].
           destruct Hrun as (ws & cs & chunks & H1 & H2 & H3 & H4).
           simpl in *.
           eexists (_ :: cs). rewrite H1, H2, H3, Hc, <- app_assoc. simpl.
           split; [reflexivity|]. rewrite H4. reflexivity.
    + inversion Hrun; subst. exists []. rewrite app_nil_r. split; reflexivity.
Qed.

End Trace.

(* ================================================================= *)
(** ** The shape of a run *)

(** A run either calls nothing and ends at once, or it is the run of
    the loop over the tokens of the body. *)
Lemma process_cases {ext : Externals} (html_content : string)
    (max_chunk_size overlap_tokens : Z) (with_metadata : bool)
    (fuel : nat) (w : world) :
  let r := process_html_in_chunks html_content max_chunk_size overlap_tokens
             with_metadata fuel w in
  let metadata := extract_metadata html_content in
  let block := make_metadata_block with_metadata metadata in
  (exists o, o <> Unfinished
             /\ r = {| result := o; planned := []; recorded := [];
                       after := w |})
  \/ exists tokens st exit,
       encode (strip_head html_content) = Some tokens
       /\ chunk_loop tokens max_chunk_size overlap_tokens block fuel
            (initial_state w) = (st, exit)
       /\ r = {| result :=
                   match exit with
                   | NoFuel => Unfinished
                   | _ =>
                       Returned
                         (ensure_front_matter with_metadata metadata block
                            (clean (markdown_chunks st)))
                         (MetaDict metadata)
                   end;
                 planned := emitted st; recorded := markdown_chunks st;
                 after := outside st |}.
Proof.
  intros r metadata block. subst r metadata block.
  unfold process_html_in_chunks.
  destruct (match find "body" (html_parser html_content) with
            | Some body => negb (PyStr.truthy (get_text_strip body))
            | None => true
            end);
    [left; eexists; split; [|reflexivity]; discriminate|].
  destruct (encode html_content) as [all_tokens|];
    [|left; eexists; split; [|reflexivity]; discriminate].
  destruct (MAX_TOKEN_LIMIT <? Z.of_nat (length all_tokens));
    [|rewrite single_chunk_call; left; eexists; split;
      [|reflexivity]; discriminate].
  destruct (encode (strip_head html_content)) as [tokens|];
    [|left; eexists; split; [|reflexivity]; discriminate].
  right. exists tokens.
  destruct (chunk_loop _ _ _ _ _ _) as [st exit].
  exists st, exit. split; [reflexivity|]. split; [reflexivity|].
  destruct exit; reflexivity.
Qed.


(* ================================================================= *)
(** ** How answers end the loop *)

Section Answers.

Context {ext : Externals}.

Lemma kept_stripped (call : invoke_request * option string) (c : string) :
  kept call c -> PyStr.strip c = c.
Proof.
  intros (o & _ & E). subst c. apply strip_idempotent.
Qed.

(** A call that passed was answered by a text that is neither blank
    nor holds the sentinel, and its chunk sits at the same position. *)
Lemma passed_answer (l : list (invoke_request * option string))
    (chunks : list string) :
  Forall2 passed l chunks ->
  forall i req out,
    nth_error l i = Some (req, Some out) ->
    PyStr.contains END (PyStr.strip out) = false
    /\ PyStr.strip out <> ""
    /\ nth_error chunks i = Some (PyStr.strip out).
Proof.
  induction 1 as [|call c l chunks Hp _ IH]; intros i req out Hi.
  - destruct i; discriminate.
  - destruct i as [|i]; simpl in Hi.
    + inversion Hi; subst call.
      destruct Hp as ((o & Ho & Ec) & Hn & He). simpl in Ho.
      inversion Ho; subst o. subst c.
      rewrite strip_idempotent in Hn. repeat split; assumption.
    + simpl. exact (IH i req out Hi).
Qed.

Lemma passed_chunks (l : list (invoke_request * option string))
    (chunks : list string) :
  Forall2 passed l chunks ->
  Forall (fun c => PyStr.strip c = c /\ c <> ""
                   /\ PyStr.contains END c = false) chunks.
Proof.
  induction 1 as [|call c l chunks (Hk & Hn & He) _ IH]; constructor.
  - split; [exact (kept_stripped Hk)|].
    split; [exact (strip_not_blank Hn) | exact He].
  - exact IH.
Qed.

Lemma Forall2_same_length {A B : Type} (R : A -> B -> Prop)
    (l : list A) (l' : list B) :
  Forall2 R l l' -> length l = length l'.
Proof. induction 1; simpl; congruence. Qed.

End Answers.

(** X3.  The sentinel ends the run and is kept.  When the service
    answers a call with a text that holds ["END"], that call is the
    last one of the run, its stripped answer is the last chunk kept, and
    the run returns. *)
Theorem sentinel_ends_run {ext : Externals} (html_content : string)
    (max_chunk_size overlap_tokens : Z) (with_metadata : bool)
    (fuel : nat) (w : world) (i : nat) (req : invoke_request)
    (output_text : string) :
  let r := process_html_in_chunks html_content max_chunk_size overlap_tokens
             with_metadata fuel w in
  nth_error (new_calls w r) i = Some (req, Some output_text) ->
  PyStr.contains END (PyStr.strip output_text) = true ->
  PyStr.strip output_text <> "" ->
  length (new_calls w r) = S i
  /\ length (recorded r) = S i
  /\ nth_error (recorded r) i = Some (PyStr.strip output_text)
  /\ exists text metadata, result r = Returned text metadata.
Proof.
  intros r.
  destruct (process_cases html_content max_chunk_size overlap_tokens
              with_metadata fuel w)
    as [(o & _ & E)|(tokens & st & exit & _ & Hrun & E)];
    fold r in E; rewrite E.
  - rewrite new_calls_none. destruct i; discriminate.
  - apply chunk_loop_trace in Hrun.
    destruct Hrun as (cs & chunks & Hc & Hm & Hx). simpl in Hc, Hm.
    rewrite (@new_calls_loop _ w _ st cs Hc). simpl. rewrite Hm.
    clear Hm E.
    intros Hi Hend Hfull.
    assert (Hpass : forall l ch,
               Forall2 passed l ch ->
               nth_error l i <> Some (req, Some output_text)).
    { intros l ch HF Hl.
      destruct (passed_answer HF i Hl) as (He & _). congruence. }
    destruct exit.
    + exfalso. exact (Hpass _ _ Hx Hi).
    + destruct Hx as (before & last & Ec & HF & HD). subst cs.
      exfalso.
      destruct (Nat.lt_ge_cases i (length before)) as [Hlt|Hge].
      * rewrite nth_error_app1 in Hi by assumption. exact (Hpass _ _ HF Hi).
      * assert (Hlen : (i < length (before ++ [last]))%nat)
          by (apply nth_error_Some; congruence).
        rewrite length_app in Hlen. simpl in Hlen.
        rewrite nth_error_app2 in Hi by assumption.
        replace (i - length before)%nat with 0%nat in Hi by lia.
        simpl in Hi. inversion Hi; subst last.
        destruct HD as [HD|(o & HD & Hb)]; [discriminate|].
        simpl in HD. inversion HD; subst o.
        rewrite strip_idempotent in Hb. contradiction.
    + destruct Hx as (before & last & kb & c & Ec & Ech & HF & HK & HN & HE).
      subst cs chunks.
      destruct (Nat.lt_ge_cases i (length before)) as [Hlt|Hge].
      * rewrite nth_error_app1 in Hi by assumption.
        exfalso. exact (Hpass _ _ HF Hi).
      * assert (Hlen : (i < length (before ++ [last]))%nat)
          by (apply nth_error_Some; congruence).
        rewrite length_app in Hlen. simpl in Hlen.
        assert (Ei : i = length before) by lia.
        assert (Ek : length before = length kb)
          by exact (Forall2_same_length HF).
        rewrite nth_error_app2 in Hi by assumption.
        replace (i - length before)%nat with 0%nat in Hi by lia.
        simpl in Hi. inversion Hi; subst last.
        destruct HK as (o & Ho & Eo). simpl in Ho. inversion Ho; subst o.
        rewrite !length_app. simpl.
        split; [lia|]. split; [lia|]. split.
        -- rewrite nth_error_app2 by lia.
           replace (i - length kb)%nat with 0%nat by lia.
           simpl. congruence.
        -- eexists; eexists; reflexivity.
    + exfalso. exact (Hpass _ _ Hx Hi).
Qed.

(** X4.  A blank answer ends the run and is dropped.  When the service
    answers a call with a text of white space only, that call is the
    last one of the run, nothing is kept for it, and the run returns. *)
Theorem blank_answer_ends_run {ext : Externals} (html_content : string)
    (max_chunk_size overlap_tokens : Z) (with_metadata : bool)
    (fuel : nat) (w : world) (i : nat) (req : invoke_request)
    (output_text : string) :
  let r := process_html_in_chunks html_content max_chunk_size overlap_tokens
             with_metadata fuel w in
  nth_error (new_calls w r) i = Some (req, Some output_text) ->
  PyStr.strip output_text = "" ->
  length (new_calls w r) = S i
  /\ length (recorded r) = i
  /\ exists text metadata, result r = Returned text metadata.
Proof.
  intros r.
  destruct (process_cases html_content max_chunk_size overlap_tokens
              with_metadata fuel w)
    as [(o & _ & E)|(tokens & st & exit & _ & Hrun & E)];
    fold r in E; rewrite E.
  - rewrite new_calls_none. destruct i; discriminate.
  - apply chunk_loop_trace in Hrun.
    destruct Hrun as (cs & chunks & Hc & Hm & Hx). simpl in Hc, Hm.
    rewrite (@new_calls_loop _ w _ st cs Hc). simpl. rewrite Hm.
    clear Hm E.
    intros Hi Hblank.
    assert (Hpass : forall l ch,
               Forall2 passed l ch ->
               nth_error l i <> Some (req, Some output_text)).
    { intros l ch HF Hl.
      destruct (passed_answer HF i Hl) as (_ & Hn & _). contradiction. }
    destruct exit.
    + exfalso. exact (Hpass _ _ Hx Hi).
    + destruct Hx as (before & last & Ec & HF & HD). subst cs.
      destruct (Nat.lt_ge_cases i (length before)) as [Hlt|Hge].
      * rewrite nth_error_app1 in Hi by assumption.
        exfalso. exact (Hpass _ _ HF Hi).
      * assert (Hlen : (i < length (before ++ [last]))%nat)
          by (apply nth_error_Some; congruence).
        rewrite length_app in *. simpl in *.
        rewrite <- (Forall2_same_length HF).
        split; [lia|]. split; [lia|]. eexists; eexists; reflexivity.
    + destruct Hx as (before & last & kb & c & Ec & Ech & HF & HK & HN & HE).
      subst cs chunks. exfalso.
      destruct (Nat.lt_ge_cases i (length before)) as [Hlt|Hge].
      * rewrite nth_error_app1 in Hi by assumption. exact (Hpass _ _ HF Hi).
      * assert (Hlen : (i < length (before ++ [last]))%nat)
          by (apply nth_error_Some; congruence).
        rewrite length_app in Hlen. simpl in Hlen.
        rewrite nth_error_app2 in Hi by assumption.
        replace (i - length before)%nat with 0%nat in Hi by lia.
        simpl in Hi. inversion Hi; subst last.
        destruct HK as (o & Ho & Eo). simpl in Ho. inversion Ho; subst o.
        subst c. rewrite strip_idempotent in HN. contradiction.
    + exfalso. exact (Hpass _ _ Hx Hi).
Qed.

(** The chunks of a run: each one stripped and not empty, none but the
    last with the sentinel. *)
Lemma recorded_chunks_facts {ext : Externals} (html_content : string)
    (max_chunk_size overlap_tokens : Z) (with_metadata : bool)
    (fuel : nat) (w : world) :
  let r := process_html_in_chunks html_content max_chunk_size overlap_tokens
             with_metadata fuel w in
  Forall (fun c => PyStr.strip c = c /\ c <> "") (recorded r)
  /\ Forall (fun c => PyStr.contains END c = false) (removelast (recorded r)).
Proof.
  intros r.
  destruct (process_cases html_content max_chunk_size overlap_tokens
              with_metadata fuel w)
    as [(o & _ & E)|(tokens & st & exit & _ & Hrun & E)];
    fold r in E; rewrite E; simpl.
  - split; constructor.
  - apply chunk_loop_trace in Hrun.
    destruct Hrun as (cs & chunks & _ & Hm & Hx). simpl in Hm. rewrite Hm.
    clear Hm E.
    assert (Hall : forall l ch,
               Forall2 passed l ch ->
               Forall (fun c => PyStr.strip c = c /\ c <> "") ch
               /\ Forall (fun c => PyStr.contains END c = false) ch).
    { intros l ch HF. apply passed_chunks in HF.
      split; eapply Forall_impl; try exact HF; simpl; intuition. }
    assert (Hrl : forall ch,
               Forall (fun c => PyStr.contains END c = false) ch ->
               Forall (fun c => PyStr.contains END c = false) (removelast ch)).
    { intros ch HF. induction HF as [|c ch Hc HF IH]; simpl; [constructor|].
      destruct ch; [constructor | constructor; assumption]. }
    destruct exit.
    + destruct (Hall _ _ Hx). split; [assumption | apply Hrl; assumption].
    + destruct Hx as (before & last & _ & HF & _).
      destruct (Hall _ _ HF). split; [assumption | apply Hrl; assumption].
    + destruct Hx as (before & last & kb & c & _ & Ech & HF & HK & HN & _).
      subst chunks. destruct (Hall _ _ HF) as [H1 H2].
      split.
      * apply Forall_app. split; [assumption|].
        constructor; [|constructor].
        split; [exact (kept_stripped HK) | exact (strip_not_blank HN)].
      * rewrite removelast_last. assumption.
    + destruct (Hall _ _ Hx). split; [assumption | apply Hrl; assumption].
Qed.

(** X5.  The chunks a run keeps.  Every kept chunk is a non-empty text
    without white space at either end, and no kept chunk but the last
    one holds the sentinel. *)
Theorem kept_chunks_invariant {ext : Externals} (html_content : string)
    (max_chunk_size overlap_tokens : Z) (with_metadata : bool)
    (fuel : nat) (w : world) :
  let r := process_html_in_chunks html_content max_chunk_size overlap_tokens
             with_metadata fuel w in
  Forall (fun c => PyStr.strip c = c /\ c <> "") (recorded r)
  /\ Forall (fun c => PyStr.contains END c = false) (removelast (recorded r)).
Proof.
  exact (recorded_chunks_facts html_content max_chunk_size overlap_tokens
           with_metadata fuel w).
Qed.

(* ================================================================= *)
(** ** How many windows, and how large *)

Section Sizes.

Variable tokens : list Z.
Variables max_chunk_size overlap_tokens : Z.
Hypothesis max_positive : 0 < max_chunk_size.

(** The plan has as many windows as the tokens left need, rounding
    up. *)
Lemma plan_from_length (bound : nat) :
  forall index start,
    0 <= start <= Z.of_nat (length tokens) ->
    Z.of_nat (length tokens) - start <= Z.of_nat bound ->
    Z.of_nat (length (Spec.plan_from tokens max_chunk_size overlap_tokens
                        bound index start))
    = (Z.of_nat (length tokens) - start + max_chunk_size - 1) / max_chunk_size.
Proof.
  induction bound as [|bound IH]; intros index start Hs Hb.
  - rewrite plan_from_done by lia. simpl.
    symmetry. apply Z.div_small. lia.
  - destruct (Z.lt_ge_cases start (Z.of_nat (length tokens))) as [Hlt|Hge].
    + rewrite plan_from_step by lia.
      change (length (?x :: ?l)) with (S (length l)). rewrite Nat2Z.inj_succ.
      replace (Z.of_nat (length tokens) - start + max_chunk_size - 1)
        with (Z.of_nat (length tokens) - start - 1 + 1 * max_chunk_size)
        by lia.
      rewrite Z.div_add by lia.
      destruct (Z.le_gt_cases (start + max_chunk_size)
                  (Z.of_nat (length tokens))) as [Hle|Hgt].
      * rewrite IH by lia.
        replace (Z.of_nat (length tokens) - (start + max_chunk_size)
                 + max_chunk_size - 1)
          with (Z.of_nat (length tokens) - start - 1) by lia.
        lia.
      * rewrite plan_from_done by lia. simpl.
        rewrite Z.div_small by lia. reflexivity.
    + rewrite plan_from_done by lia. simpl.
      symmetry. apply Z.div_small. lia.
Qed.

Hypothesis overlap_fits : 0 <= overlap_tokens <= max_chunk_size.

Lemma plan_from_well_sized (bound : nat) :
  forall index start,
    0 <= index -> start = index * max_chunk_size ->
    Forall (well_sized tokens max_chunk_size overlap_tokens)
      (Spec.plan_from tokens max_chunk_size overlap_tokens bound index start).
Proof.
  induction bound as [|bound IH]; intros index start Hi Hs; [constructor|].
  destruct (Z.lt_ge_cases start (Z.of_nat (length tokens))) as [Hlt|Hge];
    [|rewrite plan_from_done by lia; constructor].
  rewrite plan_from_step by lia. constructor; [|apply IH; lia].
  unfold well_sized. simpl.
  split; [exact Hs|]. split; [exact Hi|]. split; [lia|]. split; [lia|].
  assert (index = 0 \/ 1 <= index) as [E|E] by lia.
  - subst index. simpl in Hs. subst start. simpl.
    rewrite py_slice_length by lia. lia.
  - assert (max_chunk_size <= start) by nia.
    destruct (Z.eqb_spec start 0) as [|_]; [lia|].
    destruct (Z.eqb_spec index 0) as [|_]; [lia|].
    rewrite py_slice_length by lia. lia.
Qed.

End Sizes.

(** X6.  One call per window, and a bound.  With a positive window
    size a run calls the service once for each window it computes, and
    at most as often as the body has tokens divided by the window size,
    rounded up. *)
Theorem calls_bounded {ext : Externals} (html_content : string)
    (tokens : list Z) (max_chunk_size overlap_tokens : Z)
    (with_metadata : bool) (fuel : nat) (w : world) :
  encode (strip_head html_content) = Some tokens ->
  0 < max_chunk_size ->
  let r := process_html_in_chunks html_content max_chunk_size overlap_tokens
             with_metadata fuel w in
  length (new_calls w r) = length (planned r)
  /\ Z.of_nat (length (planned r))
     <= (Z.of_nat (length tokens) + max_chunk_size - 1) / max_chunk_size.
Proof.
  intros Henc Hmax r.
  destruct (process_cases html_content max_chunk_size overlap_tokens
              with_metadata fuel w)
    as [(o & _ & E)|(tokens' & st & exit & Henc' & Hrun & E)];
    fold r in E; rewrite E.
  - rewrite new_calls_none. simpl. split; [reflexivity|].
    apply Z.div_pos; lia.
  - rewrite Henc in Henc'. inversion Henc'; subst tokens'. clear Henc'.
    destruct (chunk_loop_calls _ _ _ _ _ _ Hrun)
      as (cs & chunks & Hc & _ & Hlen & _).
    simpl in Hc, Hlen.
    rewrite (@new_calls_loop _ w _ st cs Hc). simpl.
    split; [lia|].
    apply chunk_loop_plan with (bound := length tokens) in Hrun;
      simpl; try lia.
    destruct Hrun as (new & rest & He & Hp & _ & _). simpl in He, Hp.
    assert (Hl := @plan_from_length tokens max_chunk_size overlap_tokens Hmax
                    (length tokens) 0 0 ltac:(lia) ltac:(lia)).
    rewrite Hp, length_app, Z.sub_0_r in Hl. rewrite He. lia.
Qed.

(** X7.  Window sizes.  With a positive window size and an overlap
    between 0 and the window size, every window the loop computes
    starts at its index times the window size, holds between 1 and
    [max_chunk_size] new tokens, and its slice has exactly these tokens
    plus, after the first window, [overlap_tokens] tokens of context. *)
Theorem window_sizes {ext : Externals} (tokens : list Z)
    (max_chunk_size overlap_tokens : Z) (metadata_block : string)
    (fuel : nat) (w : world) (win : window) :
  0 < max_chunk_size ->
  0 <= overlap_tokens <= max_chunk_size ->
  In win (emitted (fst (chunk_loop tokens max_chunk_size overlap_tokens
                          metadata_block fuel (initial_state w)))) ->
  well_sized tokens max_chunk_size overlap_tokens win
  /\ 1 <= Z.of_nat (length (w_tokens win)) <= max_chunk_size + overlap_tokens.
Proof.
  intros Hmax Hov Hin.
  destruct (chunk_loop tokens max_chunk_size overlap_tokens metadata_block
              fuel (initial_state w)) as [st' exit] eqn:Hrun.
  apply chunk_loop_plan with (bound := length tokens) in Hrun;
    simpl; try lia.
  destruct Hrun as (new & rest & He & Hp & _ & _). simpl in He, Hp, Hin.
  rewrite He in Hin.
  assert (Hall := @plan_from_well_sized tokens max_chunk_size overlap_tokens
                    Hmax Hov (length tokens) 0 0 ltac:(lia) ltac:(lia)).
  rewrite Hp in Hall. apply Forall_app in Hall. destruct Hall as [Hall _].
  rewrite Forall_forall in Hall. specialize (Hall win Hin).
  split; [exact Hall|].
  destruct Hall as (_ & _ & H1 & H2 & H3).
  destruct (w_index win =? 0); lia.
Qed.

(* ================================================================= *)
(** ** Runs through the loop *)

Section Chunked.

Context {ext : Externals}.

(** The run of a document with text in its body and more tokens than
    the limit is the run of the loop over the tokens of its body. *)
Lemma process_chunked (html_content : string) (body : node)
    (all_tokens tokens : list Z) (max_chunk_size overlap_tokens : Z)
    (with_metadata : bool) (fuel : nat) (w : world) :
  find "body" (html_parser html_content) = Some body ->
  get_text_strip body <> "" ->
  encode html_content = Some all_tokens ->
  MAX_TOKEN_LIMIT < Z.of_nat (length all_tokens) ->
  encode (strip_head html_content) = Some tokens ->
  let metadata := extract_metadata html_content in
  let block := make_metadata_block with_metadata metadata in
  let st := fst (chunk_loop tokens max_chunk_size overlap_tokens block fuel
                   (initial_state w)) in
  let exit := snd (chunk_loop tokens max_chunk_size overlap_tokens block fuel
                     (initial_state w)) in
  process_html_in_chunks html_content max_chunk_size overlap_tokens
    with_metadata fuel w
  = {| result :=
         match exit with
         | NoFuel => Unfinished
         | _ =>
             Returned
               (ensure_front_matter with_metadata metadata block
                  (clean (markdown_chunks st)))
               (MetaDict metadata)
         end;
       planned := emitted st; recorded := markdown_chunks st;
       after := outside st |}.
Proof.
  intros Hbody Htext Henc Hlimit Hbodyenc metadata block st exit.
  subst st exit block metadata.
  unfold process_html_in_chunks.
  rewrite Hbody, Henc.
  destruct (get_text_strip body) as [|c s] eqn:Ht; [contradiction|].
  cbn [PyStr.truthy negb].
  destruct (Z.ltb_spec MAX_TOKEN_LIMIT (Z.of_nat (length all_tokens))); [|lia].
  rewrite Hbodyenc.
  destruct (chunk_loop _ _ _ _ _ _) as [st exit].
  destruct exit; reflexivity.
Qed.

Lemma append_empty_r (s : string) : s ++ "" = s.
Proof. induction s as [|c s IH]; simpl; congruence. Qed.

(** Without a kept chunk the text after the loop is the front matter
    alone. *)
Lemma front_matter_alone (with_metadata : bool) (metadata : dict) :
  ensure_front_matter with_metadata metadata
    (make_metadata_block with_metadata metadata) (clean [])
  = make_metadata_block with_metadata metadata.
Proof.
  unfold ensure_front_matter, make_metadata_block.
  destruct (with_metadata && dict_truthy metadata); [|reflexivity].
  change (clean []) with "". simpl negb. cbv iota.
  apply append_empty_r.
Qed.

(** A talkative service lets every turn of the loop go on. *)
Lemma convert_talkative (chunk previous block : string) (incl : bool)
    (w : world) :
  talkative ->
  exists out w',
    convert_chunk_to_markdown chunk previous block incl w = (out, w')
    /\ PyStr.strip out <> ""
    /\ PyStr.contains END out = false
    /\ length (calls w') = S (length (calls w)).
Proof.
  intros Htalk. unfold convert_chunk_to_markdown.
  destruct (Htalk (make_request
                     (if PyStr.truthy previous
                      then continuation_prompt chunk previous
                      else initial_prompt chunk block incl)) (svc w))
    as (o & s' & Hi & Hn & He).
  rewrite Hi. eexists; eexists. split; [reflexivity|].
  simpl. rewrite length_app. simpl. repeat split; try assumption. lia.
Qed.

(** With a window size of zero or less the loop never gets past the
    first tokens: fed by a talkative service it uses up any fuel, one
    call per turn. *)
Lemma chunk_loop_stuck (tokens : list Z) (max_chunk_size overlap_tokens : Z)
    (metadata_block : string) (fuel : nat) :
  talkative -> tokens <> [] -> max_chunk_size <= 0 ->
  forall (st st' : loop_state) (exit : loop_exit),
    start st <= 0 ->
    chunk_loop tokens max_chunk_size overlap_tokens metadata_block fuel st
    = (st', exit) ->
    exit = NoFuel
    /\ length (calls (outside st')) = (length (calls (outside st)) + fuel)%nat.
Proof.
  intros Htalk Hne Hmax.
  induction fuel as [|fuel IH]; intros st st' exit Hs Hrun; simpl in Hrun.
  - inversion Hrun; subst. split; [reflexivity | lia].
  - destruct (Z.ltb_spec (start st) (Z.of_nat (length tokens))) as [_|Hge];
      [|destruct tokens; [congruence | simpl in Hge; lia]].
    destruct (convert_talkative
                (decode (chunk_slice tokens max_chunk_size overlap_tokens
                           (start st)))
                (previous_markdown st) metadata_block (chunk_index st =? 0)
                (outside st) Htalk) as (out & w' & Hc & Hn & He & Hl).
    rewrite Hc in Hrun.
    destruct (String.eqb_spec (PyStr.strip out) "") as [|_]; [contradiction|].
    rewrite He in Hrun.
    apply IH in Hrun; [|simpl; lia].
    simpl in Hrun. destruct Hrun as [Hx Hcalls].
    split; [exact Hx | lia].
Qed.

End Chunked.

(** X8.  A chunked run ends and returns.  For a document with text in
    its body and more tokens than the limit, a positive window size and
    more fuel than the body has tokens, the run returns -- whatever the
    service answers, and whether or not metadata is requested -- the
    pair of the text built from the kept chunks and the metadata map of
    the document. *)
Theorem chunked_run_returns {ext : Externals} (html_content : string)
    (body : node) (all_tokens tokens : list Z)
    (max_chunk_size overlap_tokens : Z) (with_metadata : bool)
    (fuel : nat) (w : world) :
  find "body" (html_parser html_content) = Some body ->
  get_text_strip body <> "" ->
  encode html_content = Some all_tokens ->
  MAX_TOKEN_LIMIT < Z.of_nat (length all_tokens) ->
  encode (strip_head html_content) = Some tokens ->
  0 < max_chunk_size ->
  (length tokens < fuel)%nat ->
  let r := process_html_in_chunks html_content max_chunk_size overlap_tokens
             with_metadata fuel w in
  let metadata := extract_metadata html_content in
  result r =
  Returned
    (ensure_front_matter with_metadata metadata
       (make_metadata_block with_metadata metadata) (clean (recorded r)))
    (MetaDict metadata).
Proof.
  intros Hbody Htext Henc Hlimit Hbodyenc Hmax Hfuel r metadata.
  subst r metadata.
  rewrite (process_chunked _ max_chunk_size overlap_tokens with_metadata
             fuel w Hbody Htext Henc Hlimit Hbodyenc).
  destruct (chunk_loop _ _ _ _ _ _) as [st exit] eqn:Hrun. simpl.
  apply chunk_loop_plan with (bound := length tokens) in Hrun;
    simpl; try lia.
  destruct Hrun as (_ & _ & _ & _ & _ & Hf).
  destruct exit; try reflexivity.
  exfalso. apply Hf; simpl; try lia. reflexivity.
Qed.

(** X9.  A window size of zero or less never ends.  For a document
    with text in its body, more tokens than the limit and a body of at
    least one token, a window size of zero or less and a service that
    always answers with text that is neither blank nor holds the
    sentinel, the loop is still running after any number of turns, and
    has called the service once in each of them. *)
Theorem zero_window_never_ends {ext : Externals} (html_content : string)
    (body : node) (all_tokens tokens : list Z)
    (max_chunk_size overlap_tokens : Z) (with_metadata : bool)
    (fuel : nat) (w : world) :
  find "body" (html_parser html_content) = Some body ->
  get_text_strip body <> "" ->
  encode html_content = Some all_tokens ->
  MAX_TOKEN_LIMIT < Z.of_nat (length all_tokens) ->
  encode (strip_head html_content) = Some tokens ->
  tokens <> [] ->
  max_chunk_size <= 0 ->
  talkative ->
  let r := process_html_in_chunks html_content max_chunk_size overlap_tokens
             with_metadata fuel w in
  result r = Unfinished /\ length (new_calls w r) = fuel.
Proof.
  intros Hbody Htext Henc Hlimit Hbodyenc Hne Hmax Htalk r. subst r.
  rewrite (process_chunked _ max_chunk_size overlap_tokens with_metadata
             fuel w Hbody Htext Henc Hlimit Hbodyenc).
  destruct (chunk_loop _ _ _ _ _ _) as [st exit] eqn:Hrun. simpl.
  destruct (chunk_loop_stuck overlap_tokens _ fuel Htalk Hne Hmax
              (initial_state w) ltac:(simpl; lia) Hrun) as [Hx Hl].
  subst exit. split; [reflexivity|].
  unfold new_calls. simpl. rewrite length_skipn. simpl in Hl. lia.
Qed.

(** X10.  Nothing kept.  When a chunked run returns without having
    kept any chunk -- the first call failed or was answered blank, or
    the body has no token -- the returned text is the front matter
    alone: the block built from the metadata when metadata is requested
    and the map is not empty, the empty string otherwise. *)
Theorem nothing_kept_front_matter {ext : Externals} (html_content : string)
    (body : node) (all_tokens tokens : list Z)
    (max_chunk_size overlap_tokens : Z) (with_metadata : bool)
    (fuel : nat) (w : world) (text : string) (metadata : returned_metadata) :
  find "body" (html_parser html_content) = Some body ->
  get_text_strip body <> "" ->
  encode html_content = Some all_tokens ->
  MAX_TOKEN_LIMIT < Z.of_nat (length all_tokens) ->
  encode (strip_head html_content) = Some tokens ->
  let r := process_html_in_chunks html_content max_chunk_size overlap_tokens
             with_metadata fuel w in
  result r = Returned text metadata ->
  recorded r = [] ->
  text = make_metadata_block with_metadata (extract_metadata html_content)
  /\ metadata = MetaDict (extract_metadata html_content).
Proof.
  intros Hbody Htext Henc Hlimit Hbodyenc r. subst r.
  rewrite (process_chunked _ max_chunk_size overlap_tokens with_metadata
             fuel w Hbody Htext Henc Hlimit Hbodyenc).
  destruct (chunk_loop _ _ _ _ _ _) as [st exit]. simpl.
  intros Hr Hrec. rewrite Hrec in Hr.
  rewrite front_matter_alone in Hr.
  destruct exit; inversion Hr; split; reflexivity.
Qed.

(* ================================================================= *)
(** ** More on the metadata map *)

Lemma dict_set_In (k v : string) (d : dict) (e : string * string) :
  In e (dict_set k v d) -> In e d \/ e = (k, v).
Proof.
  induction d as [|[k0 v0] d IH]; simpl.
  - intros [E|[]]. right. congruence.
  - destruct (String.eqb_spec k0 k) as [E|E]; simpl.
    + intros [H|H]; [right; congruence | left; right; exact H].
    + intros [H|H]; [left; left; exact H|].
      destruct (IH H) as [H'|H']; [left; right; exact H' | right; exact H'].
Qed.

Lemma dict_set_length (k v : string) (d : dict) :
  (length (dict_set k v d) <= S (length d))%nat.
Proof.
  induction d as [|[k0 v0] d IH]; simpl; [lia|].
  destruct (String.eqb k0 k); simpl; lia.
Qed.

Lemma assign_In (l : list (string * string)) :
  forall (d : dict) (e : string * string),
    In e (fold_left assign l d) -> In e d \/ In e l.
Proof.
  induction l as [|[k v] l IH]; intros d e H; simpl in *; [left; exact H|].
  destruct (IH _ _ H) as [H'|H']; [|right; right; exact H'].
  unfold assign in H'. simpl in H'.
  destruct (dict_set_In _ _ _ _ H') as [H''|H''];
    [left; exact H'' | right; left; congruence].
Qed.

Lemma assign_length (l : list (string * string)) :
  forall d : dict,
    (length (fold_left assign l d) <= length d + length l)%nat.
Proof.
  induction l as [|[k v] l IH]; intros d; simpl; [lia|].
  specialize (IH (assign d (k, v))).
  assert (H := dict_set_length k v d). unfold assign in *. simpl in *. lia.
Qed.

Lemma extract_metadata_keys {ext : Externals} (html_content : string) :
  dict_keys (extract_metadata html_content)
  = first_keys (map fst (assignments html_content)).
Proof.
  rewrite extract_metadata_fold, assign_keys. simpl.
  induction (first_keys _) as [|k l IH]; simpl; congruence.
Qed.

(** Where an assignment comes from. *)
Lemma assignments_origin {ext : Externals} (html_content : string)
    (k v : string) :
  In (k, v) (assignments html_content) ->
  (k = "title"
   /\ exists title text,
        find "title" (html_parser html_content) = Some title
        /\ string_of title = Some text /\ text <> ""
        /\ v = PyStr.strip text)
  \/ exists meta name,
       In meta (find_all "meta" (html_parser html_content))
       /\ get "name" meta = Some name /\ name <> ""
       /\ k = PyStr.strip name
       /\ v = PyStr.strip (get_default "content" "" meta).
Proof.
  unfold assignments. intros H. apply in_app_or in H. destruct H as [H|H].
  - left. unfold title_assignment in H.
    destruct (find "title" (html_parser html_content)) as [title|] eqn:Ht;
      [|destruct H].
    destruct (string_of title) as [text|] eqn:Hs; [|destruct H].
    destruct text as [|c text]; simpl in H; [destruct H|].
    destruct H as [E|[]]. inversion E; subst.
    split; [reflexivity|]. exists title, (String c text).
    repeat split; try assumption; try reflexivity. discriminate.
  - right. apply in_flat_map in H. destruct H as (meta & Hin & H).
    unfold meta_assignment in H.
    destruct (get "name" meta) as [name|] eqn:Hn; [|destruct H].
    destruct name as [|c name]; simpl in H; [destruct H|].
    destruct H as [E|[]]. inversion E; subst.
    exists meta, (String c name).
    repeat split; try assumption; try reflexivity. discriminate.
Qed.

Lemma assignments_length {ext : Externals} (html_content : string) :
  (length (assignments html_content)
   <= S (length (find_all "meta" (html_parser html_content))))%nat.
Proof.
  unfold assignments. rewrite length_app.
  assert (H1 : (length (title_assignment (html_parser html_content)) <= 1)%nat).
  { unfold title_assignment.
    destruct (find "title" _) as [t|]; [|simpl; lia].
    destruct (string_of t) as [x|]; [|simpl; lia].
    destruct (PyStr.truthy x); simpl; lia. }
  assert (H2 : (length (flat_map meta_assignment
                          (find_all "meta" (html_parser html_content)))
                <= length (find_all "meta" (html_parser html_content)))%nat).
  { induction (find_all "meta" _) as [|m l IH]; simpl; [lia|].
    rewrite length_app.
    assert (length (meta_assignment m) <= 1)%nat.
    { unfold meta_assignment. destruct (get "name" m) as [n|]; [|simpl; lia].
      destruct (PyStr.truthy n); simpl; lia. }
    lia. }
  lia.
Qed.

(** X11.  Where the metadata comes from.  Every entry of the map that
    [extract_metadata] returns is either ["title"] with the stripped
    string of the title element, that string not being empty, or the
    stripped name of a [meta] element of the document, the name not
    being empty, with the stripped content of that element (the empty
    string when it has none).  The map has at most one entry more than
    the document has [meta] elements. *)
Theorem metadata_origin {ext : Externals} (html_content : string) :
  (forall k v,
      In (k, v) (extract_metadata html_content) ->
      (k = "title"
       /\ exists title text,
            find "title" (html_parser html_content) = Some title
            /\ string_of title = Some text /\ text <> ""
            /\ v = PyStr.strip text)
      \/ exists meta name,
           In meta (find_all "meta" (html_parser html_content))
           /\ get "name" meta = Some name /\ name <> ""
           /\ k = PyStr.strip name
           /\ v = PyStr.strip (get_default "content" "" meta))
  /\ (length (extract_metadata html_content)
      <= S (length (find_all "meta" (html_parser html_content))))%nat.
Proof.
  split.
  - intros k v H. rewrite extract_metadata_fold in H.
    apply assign_In in H. destruct H as [[]|H].
    exact (assignments_origin _ _ _ H).
  - rewrite extract_metadata_fold.
    assert (H := assign_length (assignments html_content) []).
    assert (H' := assignments_length html_content). simpl in *. lia.
Qed.

(** X12.  Keys and values are stripped.  No key and no value of the
    metadata map starts or ends with white space. *)
Theorem metadata_stripped {ext : Externals} (html_content : string) :
  Forall (fun e => PyStr.strip (fst e) = fst e /\ PyStr.strip (snd e) = snd e)
    (extract_metadata html_content).
Proof.
  apply Forall_forall. intros [k v] H. simpl.
  rewrite extract_metadata_fold in H.
  apply assign_In in H. destruct H as [[]|H].
  destruct (assignments_origin _ _ _ H)
    as [(Ek & _ & text & _ & _ & _ & Ev)|(meta & name & _ & _ & _ & Ek & Ev)];
    subst k v.
  - split; [reflexivity | apply strip_idempotent].
  - split; apply strip_idempotent.
Qed.

(** X13.  The title comes first.  When the title element has a string
    that is not empty, ["title"] is the first key of the metadata map;
    its value is the stripped content of the last [meta] element whose
    stripped name is ["title"] when there is one, and the stripped
    string of the title element otherwise. *)
Theorem title_first {ext : Externals} (html_content : string)
    (title : node) (text : string) :
  find "title" (html_parser html_content) = Some title ->
  string_of title = Some text ->
  text <> "" ->
  hd_error (dict_keys (extract_metadata html_content)) = Some "title"
  /\ dict_get "title" (extract_metadata html_content)
     = Some match last_assigned "title"
                  (flat_map meta_assignment
                     (find_all "meta" (html_parser html_content))) with
            | Some v => v
            | None => PyStr.strip text
            end.
Proof.
  intros Ht Hs Hne.
  assert (Ea : assignments html_content
               = ("title", PyStr.strip text)
                 :: flat_map meta_assignment
                      (find_all "meta" (html_parser html_content))).
  { unfold assignments, title_assignment. rewrite Ht, Hs.
    destruct text; [contradiction | reflexivity]. }
  split.
  - rewrite extract_metadata_keys, Ea. reflexivity.
  - rewrite extract_metadata_fold, assign_get, Ea. simpl.
    destruct (last_assigned "title" _); reflexivity.
Qed.

(* ================================================================= *)
(** ** Content without tags *)

Lemma no_tag_no_match (name : string) (l : list node) :
  existsb (fun n => match n with Tag _ _ _ => true | Str _ _ => false end) l
  = false ->
  filter (is_tag_named name) l = [].
Proof.
  induction l as [|n l IH]; simpl; [reflexivity|].
  destruct n as [cls t|nm attrs cs]; simpl; [exact IH | discriminate].
Qed.

(** X14.  Content without tags.  When [is_html] is false for a
    content, the parser found no tag in it: the content has no
    metadata, [strip_head] leaves it as it is, and
    [process_html_in_chunks] returns the pair of the empty string and
    the empty map without calling the service. *)
Theorem tagless_content {ext : Externals} (content : string)
    (max_chunk_size overlap_tokens : Z) (with_metadata : bool)
    (fuel : nat) (w : world) :
  is_html content = false ->
  extract_metadata content = []
  /\ strip_head content = content
  /\ process_html_in_chunks content max_chunk_size overlap_tokens
       with_metadata fuel w
     = {| result := Returned "" (MetaDict []); planned := []; recorded := [];
          after := w |}.
Proof.
  unfold is_html. intros H.
  assert (Hnone : forall name, find_all name (html_parser content) = [])
    by (intros name; apply no_tag_no_match; exact H).
  split; [|split].
  - unfold extract_metadata, set_title, find. rewrite !Hnone. reflexivity.
  - unfold strip_head, find. rewrite Hnone. reflexivity.
  - unfold process_html_in_chunks, find. rewrite Hnone. reflexivity.
Qed.

(* ================================================================= *)
(** ** Substitution *)

Lemma absent_char_no_prefix (c : ascii) (rest s : string) :
  has_char c s = false -> PyStr.contains (String c rest) s = false.
Proof.
  induction s as [|d s IH]; intros H; [reflexivity|].
  simpl in H. apply orb_false_iff in H. destruct H as [Hd Hs].
  simpl. destruct (Ascii.ascii_dec c d) as [E|_].
  - subst d. rewrite Ascii.eqb_refl in Hd. discriminate.
  - simpl. exact (IH Hs).
Qed.

(** Substituting a text that does not occur changes nothing. *)
Lemma replace_absent (old new s : string) :
  old <> "" -> PyStr.contains old s = false -> PyStr.replace old new s = s.
Proof.
  intros Hne. destruct old as [|a old]; [contradiction|].
  unfold PyStr.replace.
  induction s as [|c s IH]; intros H; [reflexivity|].
  simpl in H. apply orb_false_iff in H. destruct H as [Hp Hc].
  change (PyStr.replace_from (String a old) new 0 (String c s))
    with (if String.prefix (String a old) (String c s)
          then new ++ PyStr.replace_from (String a old) new
                        (String.length (String a old) - 1) s
          else String c (PyStr.replace_from (String a old) new 0 s)).
  simpl String.prefix. rewrite Hp. now rewrite IH.
Qed.

Lemma prefix_length (p s : string) :
  String.prefix p s = true -> (String.length p <= String.length s)%nat.
Proof.
  revert s. induction p as [|a p IH]; intros s H; simpl; [lia|].
  destruct s as [|b s]; simpl in H; [discriminate|].
  destruct (Ascii.ascii_dec a b); [|discriminate].
  apply IH in H. simpl. lia.
Qed.

Lemma length_append (s t : string) :
  String.length (s ++ t) = (String.length s + String.length t)%nat.
Proof. induction s as [|c s IH]; simpl; congruence. Qed.

(** Substituting a text by one that is not longer does not lengthen
    the whole. *)
Lemma replace_from_length (old new : string) :
  (String.length new <= String.length old)%nat ->
  forall (s : string) (skip : nat),
    (String.length (PyStr.replace_from old new skip s)
     + Nat.min skip (String.length s) <= String.length s)%nat.
Proof.
  intros Hlen. induction s as [|c s IH]; intros skip; [simpl; lia|].
  destruct skip as [|k].
  - change (PyStr.replace_from old new 0 (String c s))
      with (if String.prefix old (String c s)
            then new ++ PyStr.replace_from old new (String.length old - 1) s
            else String c (PyStr.replace_from old new 0 s)).
    destruct (String.prefix old (String c s)) eqn:Hp.
    + apply prefix_length in Hp.
      rewrite length_append.
      specialize (IH (String.length old - 1)%nat).
      cbn [String.length] in *. lia.
    + specialize (IH 0%nat). cbn [String.length] in *. lia.
  - change (PyStr.replace_from old new (S k) (String c s))
      with (PyStr.replace_from old new k s).
    specialize (IH k). cbn [String.length] in *. lia.
Qed.

Lemma replace_length (old new s : string) :
  old <> "" -> (String.length new <= String.length old)%nat ->
  (String.length (PyStr.replace old new s) <= String.length s)%nat.
Proof.
  intros Hne Hlen. destruct old as [|a old]; [contradiction|].
  unfold PyStr.replace.
  assert (H := replace_from_length (String a old) new Hlen s 0). lia.
Qed.

(** X15.  [fix_escape_sequences] leaves a text without backslash as
    it is. *)
Theorem fix_escape_sequences_plain (input_string : string) :
  has_char backslash input_string = false ->
  fix_escape_sequences input_string = input_string.
Proof.
  intros H. unfold fix_escape_sequences.
  rewrite (@replace_absent "\:" ":" input_string);
    [|discriminate | exact (absent_char_no_prefix backslash ":" _ H)].
  rewrite (@replace_absent "\n" "" input_string);
    [|discriminate | exact (absent_char_no_prefix backslash "n" _ H)].
  rewrite (@replace_absent "\t" "" input_string);
    [|discriminate | exact (absent_char_no_prefix backslash "t" _ H)].
  rewrite (@replace_absent "\r" "" input_string);
    [|discriminate | exact (absent_char_no_prefix backslash "r" _ H)].
  reflexivity.
Qed.

(** X16.  [fix_escape_sequences] never returns a longer text than it
    was given. *)
Theorem fix_escape_sequences_shorter (input_string : string) :
  (String.length (fix_escape_sequences input_string)
   <= String.length input_string)%nat.
Proof.
  unfold fix_escape_sequences.
  assert (H1 := @replace_length "\:" ":" input_string
                  ltac:(discriminate) ltac:(simpl; lia)).
  assert (H2 := @replace_length "\n" "" (PyStr.replace "\:" ":" input_string)
                  ltac:(discriminate) ltac:(simpl; lia)).
  assert (H3 := @replace_length "\t" ""
                  (PyStr.replace "\n" "" (PyStr.replace "\:" ":" input_string))
                  ltac:(discriminate) ltac:(simpl; lia)).
  assert (H4 := @replace_length "\r" ""
                  (PyStr.replace "\t" ""
                     (PyStr.replace "\n" ""
                        (PyStr.replace "\:" ":" input_string)))
                  ltac:(discriminate) ltac:(simpl; lia)).
  lia.
Qed.

(* ================================================================= *)
(** ** The text of a run without the sentinel *)

Lemma stripped_both_ends (c : string) :
  PyStr.strip c = c -> PyStr.lstrip c = c /\ PyStr.rstrip c = c.
Proof.
  unfold PyStr.strip. intros H. split; rewrite <- H.
  - apply lstrip_idempotent.
  - apply rstrip_lstrip. apply rstrip_idempotent.
Qed.

Lemma lstrip_length (s : string) :
  (String.length (PyStr.lstrip s) <= String.length s)%nat.
Proof.
  induction s as [|c s IH]; simpl; [lia|].
  destruct (PyStr.is_space c); simpl; lia.
Qed.

(** A text that starts with no white space keeps its start when
    something is appended. *)
Lemma lstrip_app (a b : string) :
  PyStr.lstrip a = a -> a <> "" ->
  PyStr.lstrip (a ++ b) = a ++ b /\ a ++ b <> "".
Proof.
  intros H Hne. destruct a as [|c a]; [contradiction|].
  simpl in *. destruct (PyStr.is_space c).
  - exfalso. assert (Hl := lstrip_length a). rewrite H in Hl. simpl in Hl. lia.
  - split; [reflexivity | discriminate].
Qed.

(** A text that ends with no white space keeps its end when something
    is put in front. *)
Lemma rstrip_app (a b : string) :
  PyStr.rstrip b = b -> b <> "" ->
  PyStr.rstrip (a ++ b) = a ++ b /\ a ++ b <> "".
Proof.
  intros H Hne. induction a as [|c a [IH1 IH2]]; [split; assumption|].
  split; [|discriminate].
  simpl. rewrite IH1. destruct (a ++ b); [contradiction | reflexivity].
Qed.

Lemma join_stripped (chunks : list string) :
  chunks <> [] ->
  Forall (fun c => PyStr.strip c = c /\ c <> "") chunks ->
  (PyStr.lstrip (PyStr.join PyStr.nl chunks) = PyStr.join PyStr.nl chunks
   /\ PyStr.rstrip (PyStr.join PyStr.nl chunks) = PyStr.join PyStr.nl chunks)
  /\ PyStr.join PyStr.nl chunks <> "".
Proof.
  unfold PyStr.join.
  induction chunks as [|c chunks IH]; intros Hne HF; [contradiction|].
  inversion HF as [|? ? [Hs Hc] HF']; subst.
  destruct (stripped_both_ends Hs) as [Hl Hr].
  destruct chunks as [|d chunks].
  - simpl. repeat split; assumption.
  - change (String.concat PyStr.nl (c :: d :: chunks))
      with (c ++ PyStr.nl ++ String.concat PyStr.nl (d :: chunks)).
    destruct (IH ltac:(discriminate) HF') as [[_ IHr] IHne].
    destruct (lstrip_app (PyStr.nl ++ String.concat PyStr.nl (d :: chunks))
                Hl Hc) as [L Lne].
    destruct (rstrip_app PyStr.nl IHr IHne) as [R1 R1ne].
    destruct (rstrip_app c R1 R1ne) as [R Rne].
    repeat split; assumption.
Qed.

(** The sentinel begins in a text followed by a line feed only where
    it begins in the text itself. *)
Lemma prefix_END_line (a b : string) :
  String.prefix END (a ++ PyStr.nl ++ b) = String.prefix END a.
Proof.
  destruct a as [|c1 [|c2 [|c3 a]]]; simpl;
    repeat match goal with
           | |- context [Ascii.ascii_dec ?x ?y] =>
               destruct (Ascii.ascii_dec x y); try discriminate
           end;
    try reflexivity.
  now rewrite !prefix_empty.
Qed.

Lemma contains_END_lines (a b : string) :
  PyStr.contains END a = false -> PyStr.contains END b = false ->
  PyStr.contains END (a ++ PyStr.nl ++ b) = false.
Proof.
  intros Ha Hb. induction a as [|c a IH].
  - simpl. simpl in Hb. exact Hb.
  - change (PyStr.contains END (String c a ++ PyStr.nl ++ b))
      with (String.prefix END (String c a ++ PyStr.nl ++ b)
            || PyStr.contains END (a ++ PyStr.nl ++ b)).
    rewrite prefix_END_line.
    change (PyStr.contains END (String c a))
      with (String.prefix END (String c a) || PyStr.contains END a) in Ha.
    apply orb_false_iff in Ha. destruct Ha as [Hp Hc].
    rewrite Hp, (IH Hc). reflexivity.
Qed.

Lemma join_END_free (chunks : list string) :
  Forall (fun c => PyStr.contains END c = false) chunks ->
  PyStr.contains END (PyStr.join PyStr.nl chunks) = false.
Proof.
  unfold PyStr.join. induction 1 as [|c chunks Hc HF IH]; [reflexivity|].
  destruct chunks as [|d chunks]; [exact Hc|].
  change (String.concat PyStr.nl (c :: d :: chunks))
    with (c ++ PyStr.nl ++ String.concat PyStr.nl (d :: chunks)).
  apply contains_END_lines; assumption.
Qed.

(** X17.  Text without the sentinel.  When no chunk kept by a run
    holds the sentinel, the clean-up changes nothing: the text after
    the loop is the kept chunks joined by line feeds, character for
    character. *)
Theorem sentinel_free_text {ext : Externals} (html_content : string)
    (max_chunk_size overlap_tokens : Z) (with_metadata : bool)
    (fuel : nat) (w : world) :
  let r := process_html_in_chunks html_content max_chunk_size overlap_tokens
             with_metadata fuel w in
  Forall (fun c => PyStr.contains END c = false) (recorded r) ->
  clean (recorded r) = PyStr.join PyStr.nl (recorded r).
Proof.
  intros r Hfree.
  destruct (recorded_chunks_facts html_content max_chunk_size overlap_tokens
              with_metadata fuel w) as [Hs _].
  fold r in Hs. unfold clean.
  rewrite replace_absent;
    [|discriminate | apply join_END_free; exact Hfree].
  destruct (recorded r) as [|c chunks] eqn:E; [reflexivity|].
  destruct (@join_stripped (c :: chunks) ltac:(discriminate) Hs)
    as [[Hl Hr] _].
  unfold PyStr.strip. rewrite Hr. exact Hl.
Qed.

(* ================================================================= *)
(** ** What a prompt holds *)

Lemma prefix_self_app (x t : string) : String.prefix x (x ++ t) = true.
Proof.
  induction x as [|c x IH]; simpl; [apply prefix_empty|].
  destruct (Ascii.ascii_dec c c); [exact IH | contradiction].
Qed.

Lemma contains_prefix (x s : string) :
  String.prefix x s = true -> PyStr.contains x s = true.
Proof.
  intros H. destruct s as [|c s].
  - change (PyStr.contains x "") with (String.prefix x "" || false).
    rewrite H. reflexivity.
  - change (PyStr.contains x (String c s))
      with (String.prefix x (String c s) || PyStr.contains x s).
    rewrite H. reflexivity.
Qed.

Lemma contains_self_app (x t : string) : PyStr.contains x (x ++ t) = true.
Proof. apply contains_prefix, prefix_self_app. Qed.

Lemma contains_app_r (x a s : string) :
  PyStr.contains x s = true -> PyStr.contains x (a ++ s) = true.
Proof.
  intros H. induction a as [|c a IH]; [exact H|].
  simpl. rewrite IH. apply orb_true_r.
Qed.

Lemma contains_join (x sep : string) (parts : list string) :
  In x parts -> PyStr.contains x (PyStr.join sep parts) = true.
Proof.
  unfold PyStr.join. induction parts as [|y parts IH]; intros Hin; [destruct Hin|].
  destruct parts as [|z parts].
  - destruct Hin as [E|[]]. subst y.
    change (String.concat sep [x]) with x.
    assert (H := contains_self_app x ""). rewrite append_empty_r in H.
    exact H.
  - change (String.concat sep (y :: z :: parts))
      with (y ++ sep ++ String.concat sep (z :: parts)).
    destruct Hin as [E|Hin].
    + subst y. apply contains_self_app.
    + apply contains_app_r, contains_app_r, IH. exact Hin.
Qed.

(** X18.  What is sent.  The prompt of every call holds the text of
    the chunk, character for character; it holds the previous markdown
    when there is one, and otherwise, when the front matter is asked
    for, the metadata block. *)
Theorem prompt_holds_chunk {ext : Externals}
    (html_chunk previous_markdown metadata_block : string)
    (include_metadata : bool) (w : world) :
  exists req answer,
    calls (snd (convert_chunk_to_markdown html_chunk previous_markdown
                  metadata_block include_metadata w))
    = (calls w ++ [(req, answer)])%list
    /\ PyStr.contains html_chunk (inputText req) = true
    /\ (previous_markdown <> "" ->
        PyStr.contains previous_markdown (inputText req) = true)
    /\ (previous_markdown = "" -> include_metadata = true ->
        PyStr.contains metadata_block (inputText req) = true).
Proof.
  destruct (convert_run html_chunk previous_markdown metadata_block
              include_metadata w) as (answer & Hc & _).
  eexists; exists answer. split; [exact Hc|].
  simpl inputText.
  destruct previous_markdown as [|c p]; cbn [PyStr.truthy].
  - split; [|split].
    + apply contains_join. simpl. tauto.
    + intros H. contradiction.
    + intros _ E. subst include_metadata. apply contains_join. simpl. tauto.
  - split; [|split].
    + apply contains_join. simpl. tauto.
    + intros _. apply contains_join. simpl. tauto.
    + discriminate.
Qed.

(* ================================================================= *)
(** ** An overlap larger than the window *)

(** A negative start counts from the end of the list. *)
Lemma py_slice_from_end (l : list Z) (lo hi : Z) :
  lo < 0 -> 0 <= lo + Z.of_nat (length l) ->
  py_slice l lo hi = py_slice l (lo + Z.of_nat (length l)) hi.
Proof.
  intros Hlo Hge. unfold py_slice, adjust_index.
  destruct (Z.ltb_spec lo 0); [|lia].
  destruct (Z.ltb_spec (lo + Z.of_nat (length l)) 0); [lia|].
  rewrite (Z.max_l (lo + Z.of_nat (length l)) 0) by lia.
  rewrite (Z.min_l (lo + Z.of_nat (length l)) (Z.of_nat (length l))) by lia.
  reflexivity.
Qed.

Lemma py_slice_crossed (l : list Z) (a b : Z) :
  0 <= a -> b <= a -> 0 <= b -> py_slice l a b = [].
Proof.
  intros Ha Hba Hb. unfold py_slice, adjust_index.
  destruct (Z.ltb_spec a 0); [lia|]. destruct (Z.ltb_spec b 0); [lia|].
  replace (Z.to_nat (Z.min b (Z.of_nat (length l))
                     - Z.min a (Z.of_nat (length l)))) with 0%nat by lia.
  reflexivity.
Qed.

(** X19.  An overlap larger than the window.  With a positive window
    size and an overlap larger than it (and not larger than the window
    size plus the number of tokens), the second window does not start
    before its own start: the negative index [start - overlap_tokens]
    counts from the end of the tokens, so the slice runs from
    [total + max_chunk_size - overlap_tokens] to
    [min(2 * max_chunk_size, total)], and it is empty when that start
    is not before that end. *)
Theorem oversized_overlap_wraps {ext : Externals} (tokens : list Z)
    (max_chunk_size overlap_tokens : Z) (metadata_block : string)
    (fuel : nat) (w : world) (second : window) :
  0 < max_chunk_size ->
  max_chunk_size < overlap_tokens ->
  overlap_tokens <= max_chunk_size + Z.of_nat (length tokens) ->
  nth_error
    (emitted (fst (chunk_loop tokens max_chunk_size overlap_tokens
                     metadata_block fuel (initial_state w)))) 1
  = Some second ->
  let total := Z.of_nat (length tokens) in
  w_start second = max_chunk_size
  /\ w_tokens second =
     py_slice tokens (total + max_chunk_size - overlap_tokens)
       (Z.min (max_chunk_size + max_chunk_size) total)
  /\ (Z.min (max_chunk_size + max_chunk_size) total
      <= total + max_chunk_size - overlap_tokens ->
      w_tokens second = []).
Proof.
  intros Hmax Hov Hfit Hnth total.
  destruct (chunk_loop tokens max_chunk_size overlap_tokens metadata_block
              fuel (initial_state w)) as [st' exit] eqn:Hrun.
  apply chunk_loop_plan with (bound := length tokens) in Hrun;
    simpl; try lia.
  destruct Hrun as (new & rest & He & Hp & _ & _). simpl in He, Hp.
  unfold fst in Hnth. rewrite He in Hnth.
  assert (Hi : (1 < length new)%nat) by (apply nth_error_Some; congruence).
  assert (P : nth_error (new ++ rest) 1 = Some second)
    by (rewrite nth_error_app1 by lia; assumption).
  rewrite <- Hp in P. clear Hnth Hp He Hi.
  rewrite (@plan_from_bound tokens max_chunk_size overlap_tokens Hmax
             (length tokens) (S (S (length tokens))) 0 0)
    in P by lia.
  destruct (Z.lt_ge_cases 0 (Z.of_nat (length tokens))) as [Hpos|Hzero];
    [|rewrite plan_from_done in P by lia; discriminate].
  rewrite plan_from_step in P by lia.
  cbn [nth_error] in P.
  destruct (Z.lt_ge_cases max_chunk_size (Z.of_nat (length tokens)))
    as [Hlt|Hge];
    [|rewrite plan_from_done in P by lia; discriminate].
  rewrite plan_from_step in P by lia.
  cbn [nth_error] in P. rewrite !Z.add_0_l in P.
  inversion P; subst second; clear P.
  cbn [w_start w_tokens].
  destruct (Z.eqb_spec max_chunk_size 0) as [|_]; [lia|].
  assert (Hs : py_slice tokens (max_chunk_size - overlap_tokens)
                 (Z.min (max_chunk_size + max_chunk_size)
                    (Z.of_nat (length tokens)))
               = py_slice tokens
                   (total + max_chunk_size - overlap_tokens)
                   (Z.min (max_chunk_size + max_chunk_size) total)).
  { rewrite py_slice_from_end by lia. subst total.
    f_equal. lia. }
  split; [reflexivity|]. split; [exact Hs|].
  intros Hcross. rewrite Hs. apply py_slice_crossed; subst total; lia.
Qed.

(* ================================================================= *)
(** ** The windows the loop sends *)

Section Coverage.

Variable tokens : list Z.
Variables max_chunk_size overlap_tokens : Z.
Hypothesis max_positive : 0 < max_chunk_size.
Hypothesis overlap_fits : 0 <= overlap_tokens <= max_chunk_size.

(** A planned slice is its context followed by its non-overlap
    portion, and the portion is what is left behind the context. *)
Lemma plan_from_slices (bound : nat) :
  forall index start,
    0 <= start -> start = 0 \/ overlap_tokens <= start ->
    Forall (fun w =>
              w_tokens w
              = (Spec.context_tokens tokens overlap_tokens w
                 ++ Spec.fresh_tokens tokens w)%list
              /\ Spec.non_overlap_part overlap_tokens w
                 = Spec.fresh_tokens tokens w)
      (Spec.plan_from tokens max_chunk_size overlap_tokens bound index start).
Proof.
  induction bound as [|bound IH]; intros index start H0 Hinv; [constructor|].
  destruct (Z.lt_ge_cases start (Z.of_nat (length tokens))) as [Hlt|Hge];
    [|rewrite plan_from_done by lia; constructor].
  rewrite plan_from_step by lia. constructor; [|apply IH; lia].
  unfold Spec.context_tokens, Spec.non_overlap_part, Spec.fresh_tokens.
  cbn [w_start w_end w_tokens].
  destruct (Z.eqb_spec start 0) as [E|E].
  - split; reflexivity.
  - assert (Happ :
      (py_slice tokens (start - overlap_tokens) start
       ++ py_slice tokens start
            (Z.min (start + max_chunk_size) (Z.of_nat (length tokens))))%list
      = py_slice tokens (start - overlap_tokens)
          (Z.min (start + max_chunk_size) (Z.of_nat (length tokens))))
      by (apply py_slice_app; lia).
    split; [symmetry; exact Happ|].
    rewrite <- Happ, skipn_app.
    assert (Hlen : length (py_slice tokens (start - overlap_tokens) start)
                   = Z.to_nat overlap_tokens).
    { apply Nat2Z.inj. rewrite py_slice_length by lia. lia. }
    rewrite <- Hlen, skipn_all, Nat.sub_diag. reflexivity.
Qed.

(** A chain of windows ends where it reaches. *)
Lemma contiguous_reach (ws : list window) :
  forall from to, Spec.contiguous from ws to -> Spec.reach from ws = to.
Proof.
  unfold Spec.reach.
  induction ws as [|w ws IH]; intros from to H; simpl in *; [exact H|].
  destruct H as (_ & _ & H). exact (IH _ _ H).
Qed.

Lemma contiguous_le (ws : list window) :
  forall from to, Spec.contiguous from ws to -> from <= to.
Proof.
  induction ws as [|w ws IH]; intros from to H; simpl in H; [lia|].
  destruct H as (_ & Hlt & H). apply IH in H. lia.
Qed.

(** The start of a chain is a chain, up to the point it reaches; the
    rest is a chain from there. *)
Lemma contiguous_prefix (l1 l2 : list window) :
  forall from to,
    Spec.contiguous from (l1 ++ l2) to ->
    Spec.contiguous from l1 (Spec.reach from l1)
    /\ Spec.contiguous (Spec.reach from l1) l2 to.
Proof.
  unfold Spec.reach.
  induction l1 as [|w l1 IH]; intros from to H; simpl in *.
  - split; [reflexivity | exact H].
  - destruct H as (Hs & Hlt & H). destruct (IH _ _ H) as [H1 H2].
    repeat split; assumption.
Qed.

(** The non-overlap portions of a chain hold the tokens it spans, each
    once. *)
Lemma contiguous_fresh (ws : list window) :
  forall from to,
    0 <= from -> to <= Z.of_nat (length tokens) ->
    Spec.contiguous from ws to ->
    concat (map (Spec.fresh_tokens tokens) ws) = py_slice tokens from to.
Proof.
  induction ws as [|w ws IH]; intros from to H0 Ht H; simpl in *.
  - subst to. rewrite py_slice_in_range by lia.
    rewrite Z.sub_diag. reflexivity.
  - destruct H as (Hs & Hlt & H).
    assert (Hle := contiguous_le _ _ _ H).
    assert (H1 : 0 <= w_end w) by lia.
    rewrite (IH (w_end w) to H1 Ht H). unfold Spec.fresh_tokens.
    rewrite Hs. apply py_slice_app; lia.
Qed.

End Coverage.

(** A talkative service never makes the loop stop early. *)
Lemma chunk_loop_talkative {ext : Externals} (tokens : list Z)
    (max_chunk_size overlap_tokens : Z) (metadata_block : string)
    (fuel : nat) :
  talkative ->
  forall (st st' : loop_state) (exit : loop_exit),
    chunk_loop tokens max_chunk_size overlap_tokens metadata_block fuel st
    = (st', exit) ->
    exit = Exhausted \/ exit = NoFuel.
Proof.
  intros Htalk. induction fuel as [|fuel IH]; intros st st' exit Hrun;
    simpl in Hrun.
  - inversion Hrun. right. reflexivity.
  - destruct (start st <? Z.of_nat (length tokens)).
    + destruct (convert_talkative
                  (decode (chunk_slice tokens max_chunk_size overlap_tokens
                             (start st)))
                  (previous_markdown st) metadata_block (chunk_index st =? 0)
                  (outside st) Htalk) as (out & w' & Hc & Hn & He & _).
      rewrite Hc in Hrun.
      destruct (String.eqb_spec (PyStr.strip out) "") as [|_]; [contradiction|].
      rewrite He in Hrun. exact (IH _ _ _ Hrun).
    + inversion Hrun. left. reflexivity.
Qed.

(** C3, as the script behaves.  For a positive window size and an
    overlap between 0 and the window size, the windows the loop sends
    are the first windows of the planning algorithm -- [start = 0];
    [end = min(start + maxChunkTokens, total)]; the slice
    [tokens[start:end]] at [start == 0] and
    [tokens[start - overlapTokens : end]] after it; [start] advancing by
    [maxChunkTokens] until [start >= total] -- in order; at least one
    when there are tokens and fuel for one turn.  The service is called
    once per window, with the text of the window's slice.  Every slice
    sent is its context followed by its non-overlap portion
    [tokens[start:end]]; these portions follow one another without gap
    from [0] to the end of the last window sent, and together they are
    exactly the tokens up to there, each once.  When no answer stops
    the loop (the service is talkative) the loop ends by itself, sends
    every window of the plan, and the portions are all of [[0, total)].
    With 2350 tokens, windows of 1000 and an overlap of 100 the slices
    sent are then [tokens[0:1000]], [tokens[900:2000]] and
    [tokens[1900:2350]]. *)
Theorem window_coverage {ext : Externals} (tokens : list Z)
    (max_chunk_size overlap_tokens : Z) (metadata_block : string)
    (fuel : nat) (w : world) :
  0 < max_chunk_size ->
  0 <= overlap_tokens <= max_chunk_size ->
  let total := Z.of_nat (length tokens) in
  let end_of_loop :=
    chunk_loop tokens max_chunk_size overlap_tokens metadata_block fuel
      (initial_state w) in
  let windows := emitted (fst end_of_loop) in
  let reached := Spec.reach 0 windows in
  (exists rest,
      Spec.plan tokens max_chunk_size overlap_tokens = (windows ++ rest)%list)
  /\ (tokens <> [] -> (0 < fuel)%nat -> windows <> [])
  /\ (exists cs,
        calls (outside (fst end_of_loop)) = (calls w ++ cs)%list
        /\ length cs = length windows
        /\ map fst cs
           = threaded_requests metadata_block windows
               (markdown_chunks (fst end_of_loop)))
  /\ Forall (fun win =>
               w_tokens win
               = (Spec.context_tokens tokens overlap_tokens win
                  ++ Spec.fresh_tokens tokens win)%list
               /\ Spec.non_overlap_part overlap_tokens win
                  = Spec.fresh_tokens tokens win) windows
  /\ Spec.contiguous 0 windows reached
  /\ reached <= total
  /\ concat (map (Spec.non_overlap_part overlap_tokens) windows)
     = py_slice tokens 0 reached
  /\ (talkative -> (length tokens < fuel)%nat ->
      snd end_of_loop = Exhausted
      /\ windows = Spec.plan tokens max_chunk_size overlap_tokens
      /\ reached = total
      /\ concat (map (Spec.non_overlap_part overlap_tokens) windows) = tokens
      /\ (length tokens = 2350%nat -> max_chunk_size = 1000 ->
          overlap_tokens = 100 ->
          map (fun win => (w_index win, w_tokens win)) windows =
          [ (0, py_slice tokens 0 1000);
            (1, py_slice tokens 900 2000);
            (2, py_slice tokens 1900 2350) ])).
Proof.
  intros Hmax Hov total end_of_loop windows reached.
  subst reached windows end_of_loop.
  destruct (chunk_loop tokens max_chunk_size overlap_tokens metadata_block
              fuel (initial_state w)) as [st' exit] eqn:Hrun.
  assert (Hplan := Hrun).
  apply chunk_loop_plan with (bound := length tokens) in Hplan;
    simpl; try lia.
  destruct Hplan as (new & rest & He & Hp & Hx & Hf). simpl in He, Hp.
  unfold fst, snd. rewrite He. fold (Spec.plan tokens max_chunk_size
                                      overlap_tokens) in Hp.
  assert (Hchain : Spec.contiguous 0
                     (Spec.plan tokens max_chunk_size overlap_tokens) total).
  { unfold Spec.plan. subst total.
    destruct tokens as [|t tokens'] eqn:Ht; [reflexivity|].
    rewrite <- Ht. apply plan_from_contiguous; subst; simpl length; lia. }
  assert (Hslices := @plan_from_slices tokens max_chunk_size overlap_tokens
                       Hmax Hov (length tokens) 0 0 ltac:(lia) ltac:(lia)).
  fold (Spec.plan tokens max_chunk_size overlap_tokens) in Hslices.
  rewrite Hp in Hchain, Hslices.
  apply Forall_app in Hslices. destruct Hslices as [Hslices _].
  destruct (contiguous_prefix _ _ _ _ Hchain) as [Hnew Hrest].
  assert (Hreach : Spec.reach 0 new <= total)
    by exact (contiguous_le _ _ _ Hrest).
  assert (Hparts : concat (map (Spec.non_overlap_part overlap_tokens) new)
                   = concat (map (Spec.fresh_tokens tokens) new)).
  { f_equal. apply map_ext_in. intros win Hin.
    rewrite Forall_forall in Hslices. exact (proj2 (Hslices win Hin)). }
  assert (Hcover : concat (map (Spec.non_overlap_part overlap_tokens) new)
                   = py_slice tokens 0 (Spec.reach 0 new)).
  { rewrite Hparts.
    apply contiguous_fresh; [lia | exact Hreach | exact Hnew]. }
  split; [exists rest; exact Hp|].
  split.
  { intros Hne Hfuel. destruct fuel as [|fuel']; [lia|].
    destruct (@chunk_loop_first _ tokens max_chunk_size overlap_tokens
                metadata_block fuel' w Hne st' exit Hrun)
      as ((more & Hm) & _).
    rewrite He in Hm. rewrite Hm. discriminate. }
  split.
  { destruct (@chunk_loop_requests _ tokens max_chunk_size overlap_tokens
                metadata_block fuel w st' exit Hrun) as (cs & Hc & Hreq).
    destruct (@chunk_loop_calls _ tokens max_chunk_size overlap_tokens
                metadata_block fuel _ _ _ Hrun)
      as (cs' & chunks & Hc' & _ & Hlen & _).
    simpl in Hc', Hlen. rewrite Hc in Hc'. apply app_inv_head in Hc'.
    subst cs'. rewrite He in Hreq, Hlen. simpl in Hlen.
    exists cs. split; [exact Hc|]. split; [symmetry; exact Hlen|exact Hreq]. }
  split; [exact Hslices|]. split; [exact Hnew|]. split; [exact Hreach|].
  split; [exact Hcover|].
  intros Htalk Hfuel.
  assert (Hexit : exit = Exhausted).
  { destruct (chunk_loop_talkative _ _ _ _ _ Htalk _ Hrun) as [E|E];
      [exact E|].
    exfalso. apply Hf; [lia | simpl; lia | exact E]. }
  assert (Hrest0 : rest = []) by exact (Hx Hexit).
  subst rest. rewrite app_nil_r in Hp. simpl in Hrest.
  split; [exact Hexit|]. split; [symmetry; exact Hp|].
  split; [exact Hrest|]. split.
  - rewrite Hcover, Hrest. subst total. apply py_slice_whole.
  - intros Hlen Hm Ho. subst max_chunk_size overlap_tokens.
    rewrite <- Hp. apply plan_example. exact Hlen.
Qed.

(* ================================================================= *)
(** ** Further runs in the sample environment *)

Section MoreRuns.

Import Sample.

Lemma always_ok_talkative : @talkative (externals always_ok).
Proof.
  intros req s. exists "ok", (S s).
  split; [reflexivity|]. split; [discriminate | reflexivity].
Defined.

Lemma sentinel_ends_run_witness :
  answers_of (run_on sentinel_second large_html 5000 100)
  = [Some "# Part"; Some "done END"]
  /\ length (recorded (run_on sentinel_second large_html 5000 100)) = 2%nat
  /\ nth_error (recorded (run_on sentinel_second large_html 5000 100)) 1
     = Some "done END".
Proof.
  destruct (@sentinel_ends_run (externals sentinel_second) large_html 5000 100
              true 10 (fresh sentinel_second) 1
              (fst (nth 1 (new_calls (fresh sentinel_second)
                             (run_on sentinel_second large_html 5000 100))
                      (make_request "", None))) "done END")
    as (_ & Hl & Hn & _).
  - vm_compute. reflexivity.
  - reflexivity.
  - discriminate.
  - split; [vm_compute; reflexivity|]. split; [exact Hl | exact Hn].
Defined.

Lemma blank_answer_ends_run_witness :
  answers_of (run_on blank_second large_html 5000 100)
  = [Some "# Part"; Some "  "]
  /\ length (new_calls (fresh blank_second)
               (run_on blank_second large_html 5000 100)) = 2%nat
  /\ length (recorded (run_on blank_second large_html 5000 100)) = 1%nat.
Proof.
  destruct (@blank_answer_ends_run (externals blank_second) large_html 5000 100
              true 10 (fresh blank_second) 1
              (fst (nth 1 (new_calls (fresh blank_second)
                             (run_on blank_second large_html 5000 100))
                      (make_request "", None))) "  ")
    as (Hc & Hl & _).
  - vm_compute. reflexivity.
  - reflexivity.
  - split; [vm_compute; reflexivity|]. split; [exact Hc | exact Hl].
Defined.

Lemma calls_bounded_witness :
  0 < 5000
  /\ length (new_calls (fresh always_ok) (run_on always_ok large_html 5000 100))
     = length (planned (run_on always_ok large_html 5000 100))
  /\ Z.of_nat (length (planned (run_on always_ok large_html 5000 100)))
     <= (Z.of_nat (length (tokens_of (serialize large_body))) + 5000 - 1)
        / 5000.
Proof.
  split; [lia|].
  apply (@calls_bounded (externals always_ok) large_html
           (tokens_of (serialize large_body)) 5000 100 true 10
           (fresh always_ok)).
  - vm_compute. reflexivity.
  - lia.
Defined.

Lemma window_sizes_witness :
  0 < 4 /\ 0 <= 2 <= 4
  /\ well_sized tokens_10 4 2 second_of_10
  /\ 1 <= Z.of_nat (length (w_tokens second_of_10)) <= 4 + 2.
Proof.
  split; [lia|]. split; [lia|].
  apply (@window_sizes (externals always_ok) tokens_10 4 2 "" 10
           (fresh always_ok) second_of_10); [lia | lia |].
  right. left. reflexivity.
Defined.

Lemma chunked_run_returns_witness :
  (length (tokens_of (serialize large_body)) < ample_fuel)%nat
  /\ result (@process_html_in_chunks (externals always_ok) large_html 5000 100
               false ample_fuel (fresh always_ok))
     = Returned
         (ensure_front_matter false
            (@extract_metadata (externals always_ok) large_html)
            (make_metadata_block false
               (@extract_metadata (externals always_ok) large_html))
            (clean
               (recorded
                  (@process_html_in_chunks (externals always_ok) large_html
                     5000 100 false ample_fuel (fresh always_ok)))))
         (MetaDict (@extract_metadata (externals always_ok) large_html)).
Proof.
  split; [apply Nat.ltb_lt; vm_compute; reflexivity|].
  apply (@chunked_run_returns (externals always_ok) large_html large_body
           (tokens_of large_html) (tokens_of (serialize large_body))).
  - reflexivity.
  - vm_compute. discriminate.
  - reflexivity.
  - vm_compute. reflexivity.
  - reflexivity.
  - lia.
  - apply Nat.ltb_lt. vm_compute. reflexivity.
Defined.

Lemma zero_window_never_ends_witness :
  0 <= 0
  /\ result (run_on always_ok large_html 0 100) = Unfinished
  /\ length (new_calls (fresh always_ok) (run_on always_ok large_html 0 100))
     = 10%nat.
Proof.
  split; [lia|].
  apply (@zero_window_never_ends (externals always_ok) large_html large_body
           (tokens_of large_html) (tokens_of (serialize large_body))).
  - reflexivity.
  - vm_compute. discriminate.
  - reflexivity.
  - vm_compute. reflexivity.
  - reflexivity.
  - vm_compute. discriminate.
  - lia.
  - exact always_ok_talkative.
Defined.

Lemma nothing_kept_front_matter_witness :
  recorded (run_on always_fails large_html 5000 100) = []
  /\ result (run_on always_fails large_html 5000 100)
     = Returned large_block (MetaDict large_metadata)
  /\ large_block
     = make_metadata_block true
         (@extract_metadata (externals always_fails) large_html).
Proof.
  split; [vm_compute; reflexivity|]. split; [vm_compute; reflexivity|].
  destruct (@nothing_kept_front_matter (externals always_fails) large_html
              large_body (tokens_of large_html)
              (tokens_of (serialize large_body)) 5000 100 true 10
              (fresh always_fails) large_block (MetaDict large_metadata))
    as [Ht _].
  - reflexivity.
  - vm_compute. discriminate.
  - reflexivity.
  - vm_compute. reflexivity.
  - reflexivity.
  - vm_compute. reflexivity.
  - vm_compute. reflexivity.
  - exact Ht.
Defined.

Lemma title_first_witness :
  @find "title" (sample_parser meta_html) = Some meta_title
  /\ hd_error (dict_keys (@extract_metadata (externals always_ok) meta_html))
     = Some "title"
  /\ dict_get "title" (@extract_metadata (externals always_ok) meta_html)
     = Some "T".
Proof.
  split; [reflexivity|].
  apply (@title_first (externals always_ok) meta_html meta_title " T ").
  - reflexivity.
  - reflexivity.
  - discriminate.
Defined.

Lemma tagless_content_witness :
  @is_html (externals always_ok) plain_content = false
  /\ @extract_metadata (externals always_ok) plain_content = []
  /\ @strip_head (externals always_ok) plain_content = plain_content
  /\ run_on always_ok plain_content 1000 100
     = {| result := Returned "" (MetaDict []); planned := []; recorded := [];
          after := fresh always_ok |}.
Proof.
  split; [reflexivity|].
  apply (@tagless_content (externals always_ok) plain_content).
  reflexivity.
Defined.

Lemma fix_escape_sequences_plain_witness :
  has_char backslash "title: a" = false
  /\ fix_escape_sequences "title: a" = "title: a".
Proof.
  split; [reflexivity|].
  apply fix_escape_sequences_plain. reflexivity.
Defined.

Lemma sentinel_free_text_witness :
  recorded (run_on always_ok large_html 5000 100) = ["ok"; "ok"; "ok"; "ok"]
  /\ clean (recorded (run_on always_ok large_html 5000 100))
     = PyStr.join PyStr.nl (recorded (run_on always_ok large_html 5000 100)).
Proof.
  split; [vm_compute; reflexivity|].
  apply (@sentinel_free_text (externals always_ok) large_html 5000 100 true
           10 (fresh always_ok)).
  vm_compute. repeat constructor.
Defined.

Lemma oversized_overlap_wraps_witness :
  0 < 2 /\ 2 < 3 /\ 3 <= 2 + Z.of_nat (length tokens_10)
  /\ w_tokens wrapped_second = py_slice tokens_10 (10 + 2 - 3) (Z.min (2 + 2) 10)
  /\ w_tokens wrapped_second = [].
Proof.
  split; [lia|]. split; [lia|]. split; [vm_compute; discriminate|].
  destruct (@oversized_overlap_wraps (externals always_ok) tokens_10 2 3 ""
              10 (fresh always_ok) wrapped_second)
    as (_ & Ht & He).
  - lia.
  - lia.
  - vm_compute. discriminate.
  - reflexivity.
  - split; [exact Ht|]. apply He. vm_compute. discriminate.
Defined.

Lemma window_coverage_witness :
  0 < 1000 /\ 0 <= 100 <= 1000
  /\ (length tokens_2350 < ample_fuel)%nat
  /\ snd (@chunk_loop (externals always_ok) tokens_2350 1000 100 ""
            ample_fuel (initial_state (fresh always_ok))) = Exhausted
  /\ map (fun win => (w_index win, w_tokens win))
       (emitted (fst (@chunk_loop (externals always_ok) tokens_2350 1000 100
                        "" ample_fuel (initial_state (fresh always_ok)))))
     = [ (0, py_slice tokens_2350 0 1000);
         (1, py_slice tokens_2350 900 2000);
         (2, py_slice tokens_2350 1900 2350) ]
  /\ concat (map (Spec.non_overlap_part 100)
               (emitted (fst (@chunk_loop (externals always_ok) tokens_2350
                                1000 100 "" ample_fuel
                                (initial_state (fresh always_ok))))))
     = tokens_2350.
Proof.
  assert (Hfuel : (length tokens_2350 < ample_fuel)%nat)
    by (apply Nat.ltb_lt; vm_compute; reflexivity).
  split; [lia|]. split; [lia|]. split; [exact Hfuel|].
  pose proof (@window_coverage (externals always_ok) tokens_2350 1000 100 ""
                ample_fuel (fresh always_ok) ltac:(lia) ltac:(lia)) as H.
  cbv zeta in H.
  destruct H as (_ & _ & _ & _ & _ & _ & _ & Hall).
  destruct (Hall always_ok_talkative Hfuel) as (Hx & _ & _ & Hc & Hex).
  split; [exact Hx|]. split; [|exact Hc].
  apply Hex; [vm_compute; reflexivity | reflexivity | reflexivity].
Defined.

(** C3 fails as stated: neither the window size nor the overlap is
    checked.  Over the ten tokens 1..10 with windows of 4 and an overlap
    of 9 the loop runs to its end and sends [tokens[0:4]], [tokens[-5:8]]
    and [tokens[-1:10]], that is [1;2;3;4], [6;7;8] and [10]: the tokens
    5 and 9 are in no slice, and the portions left behind an overlap of
    9 in each slice do not make up the document.  With a window size of
    0 the loop never advances: ten turns send ten empty windows at
    position 0 and the loop is still running. *)
Lemma windows_skip_tokens :
  (snd (@chunk_loop (externals always_ok) tokens_10 4 9 "" 10
          (initial_state (fresh always_ok))) = Exhausted
   /\ map w_tokens
        (emitted (fst (@chunk_loop (externals always_ok) tokens_10 4 9 "" 10
                         (initial_state (fresh always_ok)))))
      = [ [1; 2; 3; 4]; [6; 7; 8]; [10] ]
   /\ ~ In 5 (concat (map w_tokens
                 (emitted (fst (@chunk_loop (externals always_ok) tokens_10
                                  4 9 "" 10
                                  (initial_state (fresh always_ok)))))))
   /\ concat (map (Spec.non_overlap_part 9)
                (emitted (fst (@chunk_loop (externals always_ok) tokens_10
                                 4 9 "" 10
                                 (initial_state (fresh always_ok))))))
      <> tokens_10)
  /\ (snd (@chunk_loop (externals always_ok) tokens_10 0 1 "" 10
             (initial_state (fresh always_ok))) = NoFuel
      /\ map (fun win => (w_start win, w_end win, w_tokens win))
           (emitted (fst (@chunk_loop (externals always_ok) tokens_10 0 1 ""
                            10 (initial_state (fresh always_ok)))))
         = repeat (0, 0, []) 10).
Proof.
  vm_compute. repeat split; try discriminate.
  intros H. repeat (destruct H as [H|H]; [discriminate H|]). exact H.
Qed.

(** C4 fails as stated: nothing keeps the overlap within the window
    size.  Over the ten tokens 1..10 with windows of 2 and an overlap of
    3 the loop sends [tokens[0:2]] and then [tokens[-1:4]], which is
    empty: the first three tokens of the second slice are not the last
    three tokens of the first. *)
Lemma overlap_beyond_window :
  nth_error (emitted (fst (@chunk_loop (externals always_ok) tokens_10 2 3 ""
                             10 (initial_state (fresh always_ok))))) 0
  = Some {| w_index := 0; w_start := 0; w_end := 2; w_tokens := [1; 2] |}
  /\ nth_error (emitted (fst (@chunk_loop (externals always_ok) tokens_10 2 3
                                "" 10 (initial_state (fresh always_ok))))) 1
     = Some {| w_index := 1; w_start := 2; w_end := 4; w_tokens := [] |}
  /\ Spec.first_tokens 3 [] <> Spec.last_tokens 3 [1; 2].
Proof. vm_compute. repeat split. discriminate. Qed.

End MoreRuns.
